(** * NMKeepAlive: the liveness tracker of src/nm-keep-alive.c

    A shallow embedding of the keep-alive object and of the part of its
    environment that the object talks to (settings connections and their
    flags, the D-Bus connection with its signal subscriptions and
    asynchronous calls, cancellables, and the GObject property
    notifications), followed by the properties of the tracker. *)

From Stdlib Require Import ZArith Bool Lia.
From stdpp Require Import base option list gmap strings.

Local Open Scope Z_scope.

(** ** C data *)

(** [gboolean] is [gint]; any non-zero value is true. *)
Abbreviation gboolean := Z (only parsing).

Definition TRUE : gboolean := 1.
Definition FALSE : gboolean := 0.

(** Conversion of an integer to a [bool] bit-field, and [!!x]. *)
Definition truth (x : gboolean) : bool := negb (x =? 0).

(** Objects are identified by their address; [NULL] is [None] of the
    corresponding option type. *)
Abbreviation NMSettingsConnection := positive (only parsing).
Abbreviation GDBusConnection := positive (only parsing).
Abbreviation GCancellable := nat (only parsing).

(** [NMKeepAlivePrivate], field by field. *)
Record NMKeepAlivePrivate : Type := mkPriv {
  connection : option NMSettingsConnection;
  dbus_connection : option GDBusConnection;
  dbus_client : option string;
  dbus_client_confirm_cancellable : option GCancellable;
  subscription_id : N;
  floating : bool;
  forced : bool;
  alive : bool;
  dbus_client_confirmed : bool
}.

(** One [g_dbus_connection_call] of the method GetNameOwner, with the
    arguments the tracker passes: the connection, the name asked for and
    the cancellable. *)
Record GetNameOwnerCall : Type := mkCall {
  call_connection : option GDBusConnection;
  call_name : string;
  call_cancellable : GCancellable
}.

(** The tracker together with what it can observe and affect:
    - [settings]: the flags of the settings connections (a connection that
      never had its flags set has none, that is 0);
    - [flags_changed_handlers]: the connections on which the tracker's
      [connection_flags_changed] handler is connected;
    - [subscriptions]: the live NameOwnerChanged subscriptions, by
      connection and subscription id, with the name they are scoped to;
    - [calls]: the GetNameOwner calls issued so far, newest first;
    - [cancelled]: the cancellables that were cancelled;
    - [notified]: the notifications of the property alive emitted so far,
      newest first, each with the value of [alive] at that moment. *)
Record World : Type := mkWorld {
  priv : NMKeepAlivePrivate;
  settings : gmap positive Z;
  flags_changed_handlers : list positive;
  subscriptions : gmap (positive * N) string;
  next_subscription_id : N;
  calls : list GetNameOwnerCall;
  cancelled : gset nat;
  next_cancellable : nat;
  notified : list bool
}.

(** Assignments to single fields. *)
Definition set_connection (v : option NMSettingsConnection) (p : NMKeepAlivePrivate) :=
  mkPriv v (dbus_connection p) (dbus_client p) (dbus_client_confirm_cancellable p)
         (subscription_id p) (floating p) (forced p) (alive p) (dbus_client_confirmed p).
Definition set_dbus_connection (v : option GDBusConnection) (p : NMKeepAlivePrivate) :=
  mkPriv (connection p) v (dbus_client p) (dbus_client_confirm_cancellable p)
         (subscription_id p) (floating p) (forced p) (alive p) (dbus_client_confirmed p).
Definition set_dbus_client (v : option string) (p : NMKeepAlivePrivate) :=
  mkPriv (connection p) (dbus_connection p) v (dbus_client_confirm_cancellable p)
         (subscription_id p) (floating p) (forced p) (alive p) (dbus_client_confirmed p).
Definition set_dbus_client_confirm_cancellable (v : option GCancellable) (p : NMKeepAlivePrivate) :=
  mkPriv (connection p) (dbus_connection p) (dbus_client p) v
         (subscription_id p) (floating p) (forced p) (alive p) (dbus_client_confirmed p).
Definition set_subscription_id (v : N) (p : NMKeepAlivePrivate) :=
  mkPriv (connection p) (dbus_connection p) (dbus_client p) (dbus_client_confirm_cancellable p)
         v (floating p) (forced p) (alive p) (dbus_client_confirmed p).
Definition set_floating (v : bool) (p : NMKeepAlivePrivate) :=
  mkPriv (connection p) (dbus_connection p) (dbus_client p) (dbus_client_confirm_cancellable p)
         (subscription_id p) v (forced p) (alive p) (dbus_client_confirmed p).
Definition set_forced (v : bool) (p : NMKeepAlivePrivate) :=
  mkPriv (connection p) (dbus_connection p) (dbus_client p) (dbus_client_confirm_cancellable p)
         (subscription_id p) (floating p) v (alive p) (dbus_client_confirmed p).
Definition set_alive (v : bool) (p : NMKeepAlivePrivate) :=
  mkPriv (connection p) (dbus_connection p) (dbus_client p) (dbus_client_confirm_cancellable p)
         (subscription_id p) (floating p) (forced p) v (dbus_client_confirmed p).
Definition set_dbus_client_confirmed (v : bool) (p : NMKeepAlivePrivate) :=
  mkPriv (connection p) (dbus_connection p) (dbus_client p) (dbus_client_confirm_cancellable p)
         (subscription_id p) (floating p) (forced p) (alive p) v.

(** [with_priv f w] applies the assignment [f] to the tracker of [w]. *)
Definition with_priv (f : NMKeepAlivePrivate -> NMKeepAlivePrivate) (w : World) : World :=
  mkWorld (f (priv w)) (settings w) (flags_changed_handlers w) (subscriptions w)
          (next_subscription_id w) (calls w) (cancelled w) (next_cancellable w) (notified w).

(** ** The environment *)

(** Modelled from the spec: the macro [NM_FLAGS_HAS], which is not in the
    sources; it tells whether the flag [flag] is set in [flags]. *)
Definition NM_FLAGS_HAS (flags flag : Z) : bool := negb (Z.land flags flag =? 0).

(** Modelled from the spec: the accessor of the visibility source, which
    is not in the sources; it reads the current flags of the connection. *)
Definition nm_settings_connection_get_flags (w : World) (c : NMSettingsConnection) : Z :=
  default 0 (settings w !! c).

(** The flags of a settings connection change. This is the environment's
    move; the handler [connection_flags_changed] runs afterwards. *)
Definition settings_connection_flags_set (c : NMSettingsConnection) (flags : Z) (w : World) : World :=
  mkWorld (priv w) (<[c := flags]> (settings w)) (flags_changed_handlers w) (subscriptions w)
          (next_subscription_id w) (calls w) (cancelled w) (next_cancellable w) (notified w).

(** [g_signal_connect (c, FLAGS_CHANGED, connection_flags_changed, self)]. *)
Definition g_signal_connect (c : NMSettingsConnection) (w : World) : World :=
  mkWorld (priv w) (settings w) (c :: flags_changed_handlers w) (subscriptions w)
          (next_subscription_id w) (calls w) (cancelled w) (next_cancellable w) (notified w).

(** [g_signal_handlers_disconnect_by_func (c, connection_flags_changed, self)]:
    every handler of the tracker on [c] goes. *)
Definition g_signal_handlers_disconnect_by_func (c : NMSettingsConnection) (w : World) : World :=
  mkWorld (priv w) (settings w)
          (List.filter (fun c' => negb (Pos.eqb c' c)) (flags_changed_handlers w))
          (subscriptions w)
          (next_subscription_id w) (calls w) (cancelled w) (next_cancellable w) (notified w).

(** [g_dbus_connection_signal_subscribe] for NameOwnerChanged with first
    argument [name]: registers the subscription under a fresh id, which it
    returns. *)
Definition g_dbus_connection_signal_subscribe (c : GDBusConnection) (name : string) (w : World)
  : N * World :=
  let id := next_subscription_id w in
  (id, mkWorld (priv w) (settings w) (flags_changed_handlers w)
               (<[(c, id) := name]> (subscriptions w))
               (N.succ id) (calls w) (cancelled w) (next_cancellable w) (notified w)).

Definition g_dbus_connection_signal_unsubscribe (c : GDBusConnection) (id : N) (w : World) : World :=
  mkWorld (priv w) (settings w) (flags_changed_handlers w)
          (delete (c, id) (subscriptions w))
          (next_subscription_id w) (calls w) (cancelled w) (next_cancellable w) (notified w).

(** [g_cancellable_new]: a cancellable nobody has seen before. *)
Definition g_cancellable_new (w : World) : GCancellable * World :=
  let k := next_cancellable w in
  (k, mkWorld (priv w) (settings w) (flags_changed_handlers w) (subscriptions w)
              (next_subscription_id w) (calls w) (cancelled w) (S k) (notified w)).

Definition g_cancellable_cancel (k : GCancellable) (w : World) : World :=
  mkWorld (priv w) (settings w) (flags_changed_handlers w) (subscriptions w)
          (next_subscription_id w) (calls w) ({[k]} ∪ cancelled w) (next_cancellable w) (notified w).

(** [g_dbus_connection_call] of GetNameOwner: the request is sent; its
    reply comes back later through [get_name_owner_cb]. *)
Definition g_dbus_connection_call (c : option GDBusConnection) (name : string)
    (k : GCancellable) (w : World) : World :=
  mkWorld (priv w) (settings w) (flags_changed_handlers w) (subscriptions w)
          (next_subscription_id w) (mkCall c name k :: calls w) (cancelled w)
          (next_cancellable w) (notified w).

(** Modelled from the spec: [_notify (self, PROP_ALIVE)], generated by a
    macro that is not in the sources; it fires the alive-changed
    notification, which carries the value [alive] has at that moment. *)
Definition _notify (w : World) : World :=
  mkWorld (priv w) (settings w) (flags_changed_handlers w) (subscriptions w)
          (next_subscription_id w) (calls w) (cancelled w) (next_cancellable w)
          (alive (priv w) :: notified w).

(** Modelled from the spec: the helper [nm_clear_g_cancellable], which is
    not in the sources, applied to the pending confirmation; it cancels the
    request in flight, if there is one, and forgets its handle. *)
Definition nm_clear_g_cancellable (w : World) : World :=
  match dbus_client_confirm_cancellable (priv w) with
  | Some k => with_priv (set_dbus_client_confirm_cancellable None) (g_cancellable_cancel k w)
  | None => w
  end.

(** Modelled from the spec: the macro [nm_assert], which is not in the
    sources. What an assertion of the tracker rules out is disallowed by
    construction: where the condition fails the program stops, and there
    is no tracker to speak of. *)
Definition nm_assert (cond : bool) (w : World) : option World :=
  if cond then Some w else None.

(** Modelled from the spec: the comparisons [nm_streq] and [nm_streq0],
    which are not in the sources; two strings match if they are exactly
    the same. [nm_streq] reads both strings, [nm_streq0] accepts [NULL],
    which matches only [NULL]. *)
Definition nm_streq (s1 s2 : string) : bool := String.eqb s1 s2.

Definition nm_streq0 (s1 s2 : option string) : bool :=
  match s1, s2 with
  | None, None => true
  | Some a, Some b => String.eqb a b
  | _, _ => false
  end.

(** What [g_dbus_connection_call_finish] hands to the callback: a reply
    carrying the owner of the name, or an error, of which the callback
    only asks whether it is G_IO_ERROR_CANCELLED. *)
Inductive call_finish : Type :=
| Reply (name_owner : string)
| Failed (cancelled : bool).

(** The flag of a settings connection that says it is visible. The header
    that defines it is not part of the sources at hand, so its value is a
    parameter of the development. *)
Class VisibleFlag : Type := NM_SETTINGS_CONNECTION_INT_FLAGS_VISIBLE : Z.

Section KeepAlive.

Context `{VisibleFlag}.

(** ** The tracker *)

Definition _is_alive_dbus_client (w : World) : bool * World :=
  match dbus_client (priv w) with
  | None => (false, w)
  | Some client =>
      if dbus_client_confirmed (priv w) then (true, w)
      else
        let w1 := with_priv (set_dbus_client_confirmed true) w in
        let '(k, w2) := g_cancellable_new w1 in
        let w3 := with_priv (set_dbus_client_confirm_cancellable (Some k)) w2 in
        (true, g_dbus_connection_call (dbus_connection (priv w3)) client k w3)
  end.

Definition _is_alive (w : World) : bool * World :=
  if floating (priv w) || forced (priv w) then (true, w)
  else if match connection (priv w) with
          | Some c => NM_FLAGS_HAS (nm_settings_connection_get_flags w c)
                                   NM_SETTINGS_CONNECTION_INT_FLAGS_VISIBLE
          | None => false
          end
  then (true, w)
  else
    let '(present, w1) := _is_alive_dbus_client w in
    if present then (true, w1) else (false, w1).

Definition _notify_alive (w : World) : World :=
  let '(a, w1) := _is_alive w in
  if Bool.eqb (alive (priv w1)) a then w1
  else _notify (with_priv (set_alive (negb (alive (priv w1)))) w1).

Definition nm_keep_alive_is_alive (w : World) : bool := alive (priv w).

Definition nm_keep_alive_sink (w : World) : World :=
  if floating (priv w) then _notify_alive (with_priv (set_floating false) w)
  else w.

Definition nm_keep_alive_set_forced (forced' : gboolean) (w : World) : World :=
  if negb (Bool.eqb (forced (priv w)) (truth forced'))
  then _notify_alive (with_priv (set_forced (truth forced')) w)
  else w.

Definition connection_flags_changed (c : NMSettingsConnection) (w : World) : World :=
  _notify_alive w.

Definition _set_settings_connection_watch_visible
    (c : option NMSettingsConnection) (emit_signal : gboolean) (w : World) : World :=
  if bool_decide (connection (priv w) = c) then w
  else
    let w1 := match connection (priv w) with
              | Some old => with_priv (set_connection None)
                              (g_signal_handlers_disconnect_by_func old w)
              | None => w
              end in
    let w2 := match c with
              | Some new => g_signal_connect new (with_priv (set_connection (Some new)) w1)
              | None => w1
              end in
    if truth emit_signal then _notify_alive w2 else w2.

Definition nm_keep_alive_set_settings_connection_watch_visible
    (c : option NMSettingsConnection) (w : World) : World :=
  _set_settings_connection_watch_visible c TRUE w.

Definition cleanup_dbus_watch (w : World) : World :=
  match dbus_client (priv w) with
  | None => w
  | Some _ =>
      let w1 := nm_clear_g_cancellable w in
      let w2 := with_priv (set_dbus_client None) w1 in
      match dbus_connection (priv w2) with
      | Some c =>
          with_priv (set_dbus_connection None)
            (g_dbus_connection_signal_unsubscribe c (subscription_id (priv w2)) w2)
      | None => w2
      end
  end.

(** The comparison [nm_streq (name_owner, priv->dbus_client)] reads both
    strings; with no client stored it reads through [NULL], and the
    program is lost. *)
Definition get_name_owner_cb (res : call_finish) (w : World) : option World :=
  match res with
  | Failed true => Some w
  | Failed false => Some (_notify_alive (cleanup_dbus_watch w))
  | Reply name_owner =>
      match dbus_client (priv w) with
      | None => None
      | Some client =>
          if nm_streq name_owner client then Some w
          else Some (_notify_alive (cleanup_dbus_watch w))
      end
  end.

(** The signal carries the name, its old owner and its new owner, none
    of them [NULL]. *)
Definition name_owner_changed_cb (parameters : string * string * string) (w : World) : World :=
  let '(_, old_owner, new_owner) := parameters in
  if negb (nm_streq0 (Some new_owner) (Some ""%string)) then w
  else _notify_alive (cleanup_dbus_watch w).

(** The body of [if (client_address) { ... }] in
    [nm_keep_alive_set_dbus_client_watch]: the watch is armed. The
    connection is only read here, where it has to be an object. *)
Definition dbus_client_watch_register (c : GDBusConnection) (client_address : string)
    (w : World) : World :=
  let w1 := with_priv (set_dbus_client (Some client_address)) w in
  let w2 := with_priv (set_dbus_client_confirmed false) w1 in
  let w3 := with_priv (set_dbus_connection (Some c)) w2 in
  let '(id, w4) := g_dbus_connection_signal_subscribe c client_address w3 in
  with_priv (set_subscription_id id) w4.

Definition nm_keep_alive_set_dbus_client_watch (c : GDBusConnection)
    (client_address : option string) (w : World) : World :=
  let w1 := cleanup_dbus_watch w in
  let w2 := match client_address with
            | Some a => dbus_client_watch_register c a w1
            | None => w1
            end in
  _notify_alive w2.

(** [g_object_new]: the private part of a new object is all zero, and the
    object has not yet connected, subscribed, called, cancelled or notified
    anything. The settings connections exist already, with their flags. *)
Definition g_object_new (settings0 : gmap positive Z) : World :=
  mkWorld (mkPriv None None None None 0%N false false false false)
          settings0 [] ∅ 1%N [] ∅ 0%nat [].

Definition nm_keep_alive_init (w : World) : option World :=
  let '(a, w1) := _is_alive w in
  nm_assert (Bool.eqb (alive (priv w1)) a) w1.

Definition nm_keep_alive_new (floating' : gboolean) (settings0 : gmap positive Z)
  : option World :=
  match nm_keep_alive_init (g_object_new settings0) with
  | None => None
  | Some w =>
      let w1 := with_priv (set_floating (truth floating')) w in
      let w2 := with_priv (set_alive true) w1 in
      let '(a, w3) := _is_alive w2 in
      nm_assert (Bool.eqb (alive (priv w3)) a) w3
  end.

Definition dispose (w : World) : World :=
  cleanup_dbus_watch (_set_settings_connection_watch_visible None FALSE w).

(** Modelled from the spec: the visibility source, of which only the
    accessor's name is in the sources. It holds a visibility flag that can
    change and notifies its subscribers on change: when the flags of [c]
    change, the handler the tracker connected on [c] runs. *)
Definition nm_settings_connection_set_flags (c : NMSettingsConnection) (flags : Z)
    (w : World) : World :=
  if nm_settings_connection_get_flags w c =? flags then w
  else
    let w1 := settings_connection_flags_set c flags w in
    if bool_decide (c ∈ flags_changed_handlers w1) then connection_flags_changed c w1
    else w1.

(** ** What can happen to a tracker *)

(** The calls of the owner and the deliveries of the main loop. *)
Inductive event : Type :=
| Sink
| SetForced (forced' : gboolean)
| SetSettingsConnection (c : option NMSettingsConnection)
| SetDbusClientWatch (c : GDBusConnection) (client_address : option string)
| FlagsChanged (c : NMSettingsConnection) (flags : Z)
| GetNameOwnerDone (res : call_finish)
| NameOwnerChanged (parameters : string * string * string).

Definition step (e : event) (w : World) : option World :=
  match e with
  | Sink => Some (nm_keep_alive_sink w)
  | SetForced f => Some (nm_keep_alive_set_forced f w)
  | SetSettingsConnection c => Some (nm_keep_alive_set_settings_connection_watch_visible c w)
  | SetDbusClientWatch c a => Some (nm_keep_alive_set_dbus_client_watch c a w)
  | FlagsChanged c flags => Some (nm_settings_connection_set_flags c flags w)
  | GetNameOwnerDone res => get_name_owner_cb res w
  | NameOwnerChanged parameters => Some (name_owner_changed_cb parameters w)
  end.

(** The states a tracker can be in: those in which creation leaves it and
    those an event takes it to. *)
Inductive reachable : World -> Prop :=
| reachable_new f s w : nm_keep_alive_new f s = Some w -> reachable w
| reachable_step e w w' : reachable w -> step e w = Some w' -> reachable w'.

(** The events that arm the client watch anew or tear it down. *)
Definition rearms_or_tears_down (e : event) (w : World) : bool :=
  match e with
  | SetDbusClientWatch _ _ => true
  | GetNameOwnerDone (Failed cancelled) => negb cancelled
  | GetNameOwnerDone (Reply name_owner) =>
      negb (bool_decide (dbus_client (priv w) = Some name_owner))
  | NameOwnerChanged (_, _, new_owner) => String.eqb new_owner ""
  | _ => false
  end.

(** [watch_run w es w']: the events [es] take [w] to [w'], and none of them
    arms the client watch anew or tears it down. *)
Inductive watch_run : World -> list event -> World -> Prop :=
| watch_run_nil w : watch_run w [] w
| watch_run_cons w e w1 es w2 :
    rearms_or_tears_down e w = false ->
    step e w = Some w1 ->
    watch_run w1 es w2 ->
    watch_run w (e :: es) w2.

(** [presence_queries n w]: the presence of the client is asked [n] times. *)
Fixpoint presence_queries (n : nat) (w : World) : World :=
  match n with
  | O => w
  | S n' => presence_queries n' (snd (_is_alive_dbus_client w))
  end.

(** ** The derivation rule, in the words of the specification *)

(** Floating implies alive, else forced implies alive, else a present and
    visible visibility source implies alive, else a client believed
    present implies alive, else not alive. *)
Definition derive (is_floating is_forced visibility watch_present : bool) : bool :=
  if is_floating then true
  else if is_forced then true
  else if visibility then true
  else if watch_present then true
  else false.

(** The visibility source is present and its visibility flag is set. *)
Definition visibility (w : World) : bool :=
  match connection (priv w) with
  | Some c => NM_FLAGS_HAS (nm_settings_connection_get_flags w c)
                           NM_SETTINGS_CONNECTION_INT_FLAGS_VISIBLE
  | None => false
  end.

(** A client is watched, and so believed present. *)
Definition watch_present (w : World) : bool :=
  match dbus_client (priv w) with
  | Some _ => true
  | None => false
  end.

Definition derived (w : World) : bool :=
  derive (floating (priv w)) (forced (priv w)) (visibility w) (watch_present w).

(** The cached value is the derived one. *)
Definition settled (w : World) : Prop := alive (priv w) = derived w.

(** The tracker's handler is connected on the connection it watches, and
    nowhere else. *)
Definition handler_connected (w : World) : Prop :=
  flags_changed_handlers w = option_list (connection (priv w)).

(** From [w] to [w'] the value was recomputed and the notification step
    ran: the cache holds the derived value, and one notification was
    emitted exactly if that value differs from the one cached in [w]. *)
Definition recomputed_and_notified (w w' : World) : Prop :=
  alive (priv w') = derived w' /\
  notified w' = if Bool.eqb (derived w') (alive (priv w)) then notified w
                else derived w' :: notified w.

(** What a presence query leaves alone: everything but the confirmed flag,
    the pending confirmation, and the requests sent. *)
Definition same_but_confirmation (w w' : World) : Prop :=
  connection (priv w') = connection (priv w) /\
  dbus_connection (priv w') = dbus_connection (priv w) /\
  dbus_client (priv w') = dbus_client (priv w) /\
  subscription_id (priv w') = subscription_id (priv w) /\
  floating (priv w') = floating (priv w) /\
  forced (priv w') = forced (priv w) /\
  alive (priv w') = alive (priv w) /\
  settings w' = settings w /\
  flags_changed_handlers w' = flags_changed_handlers w /\
  subscriptions w' = subscriptions w /\
  next_subscription_id w' = next_subscription_id w /\
  cancelled w' = cancelled w /\
  notified w' = notified w.

(** From [w] to [w'] the watch stayed as it was, and at most one
    confirmation request went out: either none, or the one for the watched
    client, which takes the confirmed flag from false to true. *)
Definition confirmation_progress (w w' : World) : Prop :=
  dbus_client (priv w') = dbus_client (priv w) /\
  dbus_connection (priv w') = dbus_connection (priv w) /\
  ((calls w' = calls w /\
    dbus_client_confirmed (priv w') = dbus_client_confirmed (priv w) /\
    next_cancellable w' = next_cancellable w)
   \/
   (dbus_client_confirmed (priv w) = false /\
    dbus_client_confirmed (priv w') = true /\
    exists name, dbus_client (priv w) = Some name /\
      calls w' = mkCall (dbus_connection (priv w)) name (next_cancellable w) :: calls w)).

(** The reading of the specification for watching a visibility source: the
    source is replaced, then the value is recomputed and the notification
    step runs, whichever source is passed. *)
Definition watchVisibilitySource_spec (c : option NMSettingsConnection) (w : World) : World :=
  let w1 := match connection (priv w) with
            | Some old => with_priv (set_connection None)
                            (g_signal_handlers_disconnect_by_func old w)
            | None => w
            end in
  let w2 := match c with
            | Some new => g_signal_connect new (with_priv (set_connection (Some new)) w1)
            | None => w1
            end in
  _notify_alive w2.

End KeepAlive.

(** ** Scenarios *)

Section Scenario.

(** In the scenarios the visible flag is the bit 0x08. *)
#[local] Instance scenario_visible_flag : VisibleFlag := 8.

(** A tracker just created floating, with no settings connection about. *)
Definition created_world : World :=
  mkWorld (mkPriv None None None None 0%N true false true false)
          ∅ [] ∅ 1%N [] ∅ 0%nat [].

(** It is sunk: nothing keeps it alive any more. *)
Definition sunk_world : World := nm_keep_alive_sink created_world.

(** Then the client client.X is watched on the bus connection 5. *)
Definition armed_world : World :=
  nm_keep_alive_set_dbus_client_watch 5%positive (Some "client.X"%string) sunk_world.

(** A tracker created while the settings connection 1 is visible, which
    then watches that connection and is sunk. *)
Definition watching_world : World :=
  nm_keep_alive_sink
    (nm_keep_alive_set_settings_connection_watch_visible (Some 1%positive)
       (mkWorld (mkPriv None None None None 0%N true false true false)
                {[ 1%positive := 8 ]} [] ∅ 1%N [] ∅ 0%nat [])).

(** The connection has just lost its visible flag, and the tracker's
    handler has not run yet. *)
Definition stale_world : World :=
  settings_connection_flags_set 1%positive 0 watching_world.

End Scenario.

(** ** Runs, and what holds of every state a tracker can reach *)

Section Invariants.

Context `{VisibleFlag}.

(** [run es w]: the events [es] happen one after the other; the run is
    lost where an event is. *)
Fixpoint run (es : list event) (w : World) : option World :=
  match es with
  | [] => Some w
  | e :: es' =>
      match step e w with
      | Some w1 => run es' w1
      | None => None
      end
  end.

(** [alternating n b]: [n] values that start with [b] and change at every
    position. *)
Fixpoint alternating (n : nat) (b : bool) : list bool :=
  match n with
  | O => []
  | S n' => b :: alternating n' (negb b)
  end.

(** A watched client is left unconfirmed only while something else keeps
    the tracker alive. *)
Definition lazily_confirmed (w : World) : Prop :=
  dbus_client_confirmed (priv w) = false ->
  dbus_client (priv w) <> None ->
  floating (priv w) || forced (priv w) || visibility w = true.

(** The resources of the client watch: with no client watched there is no
    bus connection held, no confirmation pending and no subscription;
    with a client watched the bus connection is held and the one
    subscription is the one for that client. *)
Definition watch_resources (w : World) : Prop :=
  match dbus_client (priv w) with
  | None =>
      dbus_connection (priv w) = None /\
      dbus_client_confirm_cancellable (priv w) = None /\
      subscriptions w = ∅
  | Some a =>
      exists c, dbus_connection (priv w) = Some c /\
                subscriptions w = {[ (c, subscription_id (priv w)) := a ]}
  end.

(** The confirmation requests sent so far each have a cancellable of their
    own; a pending cancellable belongs to a confirmed watch; and a request
    that was not cancelled is the pending one, sent for the client and on
    the bus connection that are watched now. *)
Definition requests_accounted (w : World) : Prop :=
  NoDup (call_cancellable <$> calls w) /\
  (forall k : nat,
      dbus_client_confirm_cancellable (priv w) = Some k ->
      (k < next_cancellable w)%nat /\ dbus_client_confirmed (priv w) = true) /\
  (forall call : GetNameOwnerCall,
      call ∈ calls w ->
      (call_cancellable call < next_cancellable w)%nat /\
      (call_cancellable call ∈ cancelled w \/
       (dbus_client_confirm_cancellable (priv w) = Some (call_cancellable call) /\
        dbus_client (priv w) = Some (call_name call) /\
        dbus_connection (priv w) = call_connection call))).

(** The fields the client watch lives in are the same in [w] and [w']. *)
Definition same_watch (w w' : World) : Prop :=
  dbus_connection (priv w') = dbus_connection (priv w) /\
  dbus_client (priv w') = dbus_client (priv w) /\
  dbus_client_confirm_cancellable (priv w') = dbus_client_confirm_cancellable (priv w) /\
  subscription_id (priv w') = subscription_id (priv w) /\
  dbus_client_confirmed (priv w') = dbus_client_confirmed (priv w) /\
  subscriptions w' = subscriptions w /\
  next_subscription_id w' = next_subscription_id w /\
  calls w' = calls w /\
  cancelled w' = cancelled w /\
  next_cancellable w' = next_cancellable w.

(** A cancelled cancellable is one that was handed out; and the
    confirmation of a watched client, once asked for, is on record as a
    request that is pending and not cancelled. *)
Definition confirmation_on_record (w : World) : Prop :=
  (forall k : nat, k ∈ cancelled w -> (k < next_cancellable w)%nat) /\
  (forall a : string,
      dbus_client (priv w) = Some a ->
      dbus_client_confirmed (priv w) = true ->
      exists k : nat,
        dbus_client_confirm_cancellable (priv w) = Some k /\
        (k ∉ cancelled w) /\
        mkCall (dbus_connection (priv w)) a k ∈ calls w).

End Invariants.

(** ** Properties *)

Arguments NM_FLAGS_HAS : simpl never.
Arguments nm_settings_connection_get_flags : simpl never.

Ltac destruct_world w :=
  let p := fresh "p" in
  destruct w as [p ? ? ? ? ? ? ? ?]; destruct p as [? ? ? ? ? ? ? ? ?].

Section Properties.

Context `{visible : VisibleFlag}.

(** *** The recomputation *)

Lemma is_alive_dbus_client_value (w : World) :
  fst (_is_alive_dbus_client w) = watch_present w.
Proof.
  unfold _is_alive_dbus_client, watch_present.
  destruct (dbus_client (priv w)); [|reflexivity].
  destruct (dbus_client_confirmed (priv w)); reflexivity.
Qed.

Lemma same_but_confirmation_refl (w : World) : same_but_confirmation w w.
Proof. repeat split. Qed.

Lemma is_alive_dbus_client_frame (w : World) :
  same_but_confirmation w (snd (_is_alive_dbus_client w)).
Proof.
  unfold _is_alive_dbus_client.
  destruct (dbus_client (priv w)); [|apply same_but_confirmation_refl].
  destruct (dbus_client_confirmed (priv w)); [apply same_but_confirmation_refl|].
  repeat split.
Qed.

Lemma is_alive_frame (w : World) : same_but_confirmation w (snd (_is_alive w)).
Proof.
  unfold _is_alive.
  destruct (floating (priv w) || forced (priv w)); [apply same_but_confirmation_refl|].
  destruct (match connection (priv w) with Some _ => _ | None => _ end);
    [apply same_but_confirmation_refl|].
  pose proof (is_alive_dbus_client_frame w) as F.
  destruct (_is_alive_dbus_client w) as [present w1]; simpl in F.
  destruct present; exact F.
Qed.

Lemma same_but_confirmation_visibility (w w' : World) :
  same_but_confirmation w w' -> visibility w' = visibility w.
Proof.
  intros (Hc & _ & _ & _ & _ & _ & _ & Hs & _).
  unfold visibility, nm_settings_connection_get_flags. rewrite Hc, Hs. reflexivity.
Qed.

Lemma same_but_confirmation_derived (w w' : World) :
  same_but_confirmation w w' -> derived w' = derived w.
Proof.
  intros F. unfold derived. rewrite (same_but_confirmation_visibility _ _ F).
  destruct F as (_ & _ & Hcl & _ & Hfl & Hfo & _).
  unfold watch_present. rewrite Hcl, Hfl, Hfo. reflexivity.
Qed.

Lemma is_alive_value (w : World) : fst (_is_alive w) = derived w.
Proof.
  unfold _is_alive, derived, derive, visibility.
  destruct (floating (priv w)); [reflexivity|].
  destruct (forced (priv w)); [reflexivity|]. simpl.
  destruct (match connection (priv w) with Some _ => _ | None => _ end); [reflexivity|].
  rewrite <- is_alive_dbus_client_value.
  destruct (_is_alive_dbus_client w) as [[] w1]; reflexivity.
Qed.

Lemma notify_alive_frame (w : World) :
  connection (priv (_notify_alive w)) = connection (priv w) /\
  dbus_connection (priv (_notify_alive w)) = dbus_connection (priv w) /\
  dbus_client (priv (_notify_alive w)) = dbus_client (priv w) /\
  subscription_id (priv (_notify_alive w)) = subscription_id (priv w) /\
  floating (priv (_notify_alive w)) = floating (priv w) /\
  forced (priv (_notify_alive w)) = forced (priv w) /\
  settings (_notify_alive w) = settings w /\
  flags_changed_handlers (_notify_alive w) = flags_changed_handlers w /\
  subscriptions (_notify_alive w) = subscriptions w /\
  next_subscription_id (_notify_alive w) = next_subscription_id w /\
  cancelled (_notify_alive w) = cancelled w.
Proof.
  unfold _notify_alive.
  pose proof (is_alive_frame w) as F.
  destruct (_is_alive w) as [a w1]; simpl in F.
  destruct F as (F1 & F2 & F3 & F4 & F5 & F6 & F7 & F8 & F9 & F10 & F11 & F12 & F13).
  destruct (Bool.eqb (alive (priv w1)) a); simpl; repeat split; assumption.
Qed.

Lemma notify_alive_derived (w : World) : derived (_notify_alive w) = derived w.
Proof.
  pose proof (notify_alive_frame w) as (Hc & _ & Hcl & _ & Hfl & Hfo & Hs & _).
  unfold derived, visibility, watch_present, nm_settings_connection_get_flags.
  rewrite Hc, Hcl, Hfl, Hfo, Hs. reflexivity.
Qed.

Lemma notify_alive_recomputed (w : World) : recomputed_and_notified w (_notify_alive w).
Proof.
  unfold recomputed_and_notified. rewrite notify_alive_derived.
  unfold _notify_alive.
  pose proof (is_alive_frame w) as F. pose proof (is_alive_value w) as V.
  destruct (_is_alive w) as [a w1]; simpl in F, V. subst a.
  destruct F as (_ & _ & _ & _ & _ & _ & Hal & _ & _ & _ & _ & _ & Hn).
  rewrite Hal.
  destruct (alive (priv w)), (derived w); simpl; rewrite ?Hal, ?Hn; split; reflexivity.
Qed.

Lemma recomputed_after (w w1 : World) :
  alive (priv w1) = alive (priv w) -> notified w1 = notified w ->
  recomputed_and_notified w (_notify_alive w1).
Proof.
  intros Ha Hn. pose proof (notify_alive_recomputed w1) as [R1 R2].
  split; [exact R1|]. rewrite R2, Ha, Hn. reflexivity.
Qed.

Lemma recomputed_noop (w : World) : settled w -> recomputed_and_notified w w.
Proof.
  unfold settled, recomputed_and_notified. intros S. split; [exact S|].
  rewrite <- S. rewrite Bool.eqb_reflx. reflexivity.
Qed.

(** *** Teardown of the client watch *)

Lemma cleanup_dbus_watch_frame (w : World) :
  connection (priv (cleanup_dbus_watch w)) = connection (priv w) /\
  floating (priv (cleanup_dbus_watch w)) = floating (priv w) /\
  forced (priv (cleanup_dbus_watch w)) = forced (priv w) /\
  alive (priv (cleanup_dbus_watch w)) = alive (priv w) /\
  dbus_client_confirmed (priv (cleanup_dbus_watch w)) = dbus_client_confirmed (priv w) /\
  settings (cleanup_dbus_watch w) = settings w /\
  flags_changed_handlers (cleanup_dbus_watch w) = flags_changed_handlers w /\
  calls (cleanup_dbus_watch w) = calls w /\
  next_cancellable (cleanup_dbus_watch w) = next_cancellable w /\
  next_subscription_id (cleanup_dbus_watch w) = next_subscription_id w /\
  notified (cleanup_dbus_watch w) = notified w.
Proof.
  unfold cleanup_dbus_watch, nm_clear_g_cancellable.
  destruct_world w; simpl.
  repeat match goal with
         | |- context [match ?x with Some _ => _ | None => _ end] =>
             is_var x; destruct x; simpl
         end; repeat split.
Qed.

Lemma cleanup_dbus_watch_client (w : World) :
  dbus_client (priv (cleanup_dbus_watch w)) = None.
Proof.
  unfold cleanup_dbus_watch, nm_clear_g_cancellable.
  destruct_world w; simpl.
  repeat match goal with
         | |- context [match ?x with Some _ => _ | None => _ end] =>
             is_var x; destruct x; simpl
         end; reflexivity.
Qed.

Lemma cleanup_dbus_watch_unarmed (w : World) :
  dbus_client (priv w) = None -> cleanup_dbus_watch w = w.
Proof. unfold cleanup_dbus_watch. intros ->. reflexivity. Qed.

Lemma dbus_client_watch_register_frame (c : positive) (a : string) (w : World) :
  connection (priv (dbus_client_watch_register c a w)) = connection (priv w) /\
  floating (priv (dbus_client_watch_register c a w)) = floating (priv w) /\
  forced (priv (dbus_client_watch_register c a w)) = forced (priv w) /\
  alive (priv (dbus_client_watch_register c a w)) = alive (priv w) /\
  settings (dbus_client_watch_register c a w) = settings w /\
  flags_changed_handlers (dbus_client_watch_register c a w) = flags_changed_handlers w /\
  calls (dbus_client_watch_register c a w) = calls w /\
  next_cancellable (dbus_client_watch_register c a w) = next_cancellable w /\
  notified (dbus_client_watch_register c a w) = notified w.
Proof. repeat split. Qed.

(** Tearing the watch down and recomputing: the client is forgotten, and
    the notification step ran against the value cached before. *)
Lemma teardown_recomputed (w : World) :
  dbus_client (priv (_notify_alive (cleanup_dbus_watch w))) = None /\
  recomputed_and_notified w (_notify_alive (cleanup_dbus_watch w)).
Proof.
  pose proof (cleanup_dbus_watch_frame w) as (_ & _ & _ & Ha & _ & _ & _ & _ & _ & _ & Hn).
  split; [|apply recomputed_after; assumption].
  pose proof (notify_alive_frame (cleanup_dbus_watch w)) as (_ & _ & Hcl & _).
  rewrite Hcl. apply cleanup_dbus_watch_client.
Qed.

(** *** Every event recomputes or changes nothing *)

Lemma sink_recomputed (w : World) :
  settled w -> recomputed_and_notified w (nm_keep_alive_sink w).
Proof.
  intros S. unfold nm_keep_alive_sink.
  destruct (floating (priv w)); [|apply recomputed_noop, S].
  apply recomputed_after; reflexivity.
Qed.

Lemma set_forced_recomputed (f : Z) (w : World) :
  settled w -> recomputed_and_notified w (nm_keep_alive_set_forced f w).
Proof.
  intros S. unfold nm_keep_alive_set_forced.
  destruct (negb _); [|apply recomputed_noop, S].
  apply recomputed_after; reflexivity.
Qed.

Lemma set_settings_connection_recomputed (c : option positive) (w : World) :
  settled w ->
  recomputed_and_notified w (nm_keep_alive_set_settings_connection_watch_visible c w).
Proof.
  intros S.
  unfold nm_keep_alive_set_settings_connection_watch_visible,
    _set_settings_connection_watch_visible.
  case_bool_decide; [apply recomputed_noop, S|].
  change (truth TRUE) with true; cbv iota.
  apply recomputed_after; destruct (connection (priv w)), c; reflexivity.
Qed.

Lemma set_dbus_client_watch_recomputed (c : positive) (a : option string) (w : World) :
  recomputed_and_notified w (nm_keep_alive_set_dbus_client_watch c a w).
Proof.
  unfold nm_keep_alive_set_dbus_client_watch.
  pose proof (cleanup_dbus_watch_frame w) as (_ & _ & _ & Ha & _ & _ & _ & _ & _ & _ & Hn).
  apply recomputed_after; destruct a; simpl; assumption.
Qed.

Lemma unconnected_flags_irrelevant (c : positive) (flags : Z) (w : World) :
  handler_connected w -> c ∉ flags_changed_handlers w ->
  derived (settings_connection_flags_set c flags w) = derived w.
Proof.
  unfold handler_connected. intros Hh Hc.
  unfold derived, visibility, nm_settings_connection_get_flags, watch_present; simpl.
  destruct (connection (priv w)) as [c'|] eqn:E; [|reflexivity].
  assert (c <> c') as Hne.
  { intros ->. apply Hc. rewrite Hh. simpl. apply list_elem_of_here. }
  rewrite lookup_insert_ne by exact Hne. reflexivity.
Qed.

Lemma set_flags_recomputed (c : positive) (flags : Z) (w : World) :
  settled w -> handler_connected w ->
  recomputed_and_notified w (nm_settings_connection_set_flags c flags w).
Proof.
  intros S Hh. unfold nm_settings_connection_set_flags.
  destruct (_ =? _); [apply recomputed_noop, S|].
  case_bool_decide as Hc.
  - apply recomputed_after; reflexivity.
  - simpl in Hc. unfold recomputed_and_notified.
    rewrite (unconnected_flags_irrelevant c flags w Hh Hc).
    exact (recomputed_noop w S).
Qed.

Lemma get_name_owner_cb_recomputed (res : call_finish) (w w' : World) :
  settled w -> get_name_owner_cb res w = Some w' -> recomputed_and_notified w w'.
Proof.
  intros S. unfold get_name_owner_cb, nm_streq.
  destruct res as [owner|[|]].
  - destruct (dbus_client (priv w)); [|discriminate].
    destruct (String.eqb owner s); intros [= <-];
      [apply recomputed_noop, S|apply teardown_recomputed].
  - intros [= <-]. apply recomputed_noop, S.
  - intros [= <-]. apply teardown_recomputed.
Qed.

Lemma name_owner_changed_cb_recomputed (parameters : string * string * string) (w : World) :
  settled w -> recomputed_and_notified w (name_owner_changed_cb parameters w).
Proof.
  intros S. destruct parameters as [[name old_owner] new_owner]. simpl.
  destruct (negb _); [apply recomputed_noop, S|apply teardown_recomputed].
Qed.

Lemma step_recomputed (e : event) (w w' : World) :
  settled w -> handler_connected w -> step e w = Some w' ->
  recomputed_and_notified w w'.
Proof.
  intros S Hh. destruct e; simpl.
  - intros [= <-]. apply sink_recomputed, S.
  - intros [= <-]. apply set_forced_recomputed, S.
  - intros [= <-]. apply set_settings_connection_recomputed, S.
  - intros [= <-]. apply set_dbus_client_watch_recomputed.
  - intros [= <-]. apply set_flags_recomputed; assumption.
  - apply get_name_owner_cb_recomputed, S.
  - intros [= <-]. apply name_owner_changed_cb_recomputed, S.
Qed.

(** *** The handler stays on the watched connection *)

Lemma notify_alive_handler_connected (w : World) :
  handler_connected w -> handler_connected (_notify_alive w).
Proof.
  unfold handler_connected.
  pose proof (notify_alive_frame w) as (Hc & _ & _ & _ & _ & _ & _ & Hh & _).
  rewrite Hc, Hh. trivial.
Qed.

Lemma cleanup_dbus_watch_handler_connected (w : World) :
  handler_connected w -> handler_connected (cleanup_dbus_watch w).
Proof.
  unfold handler_connected.
  pose proof (cleanup_dbus_watch_frame w) as (Hc & _ & _ & _ & _ & _ & Hh & _).
  rewrite Hc, Hh. trivial.
Qed.

Lemma set_settings_connection_handler_connected (c : option positive) (w : World) :
  handler_connected w ->
  handler_connected (nm_keep_alive_set_settings_connection_watch_visible c w).
Proof.
  intros Hh.
  unfold nm_keep_alive_set_settings_connection_watch_visible,
    _set_settings_connection_watch_visible.
  case_bool_decide; [exact Hh|].
  change (truth TRUE) with true; cbv iota.
  apply notify_alive_handler_connected.
  unfold handler_connected in *.
  destruct (connection (priv w)) as [old|], c as [new|]; simpl in *;
    try congruence; rewrite Hh; simpl; rewrite ?Pos.eqb_refl; reflexivity.
Qed.

Lemma step_handler_connected (e : event) (w w' : World) :
  handler_connected w -> step e w = Some w' -> handler_connected w'.
Proof.
  intros Hh. destruct e; simpl.
  - intros [= <-]. unfold nm_keep_alive_sink.
    destruct (floating (priv w)); [|exact Hh].
    apply notify_alive_handler_connected. exact Hh.
  - intros [= <-]. unfold nm_keep_alive_set_forced.
    destruct (negb _); [|exact Hh].
    apply notify_alive_handler_connected. exact Hh.
  - intros [= <-]. apply set_settings_connection_handler_connected, Hh.
  - intros [= <-]. unfold nm_keep_alive_set_dbus_client_watch.
    apply notify_alive_handler_connected.
    pose proof (cleanup_dbus_watch_handler_connected w Hh) as Hh'.
    destruct client_address; exact Hh'.
  - intros [= <-]. unfold nm_settings_connection_set_flags.
    destruct (_ =? _); [exact Hh|].
    case_bool_decide; [apply notify_alive_handler_connected|]; exact Hh.
  - unfold get_name_owner_cb, nm_streq. destruct res as [owner|[|]].
    + destruct (dbus_client (priv w)); [|discriminate].
      destruct (String.eqb owner s); intros [= <-]; [exact Hh|].
      apply notify_alive_handler_connected, cleanup_dbus_watch_handler_connected, Hh.
    + intros [= <-]. exact Hh.
    + intros [= <-].
      apply notify_alive_handler_connected, cleanup_dbus_watch_handler_connected, Hh.
  - intros [= <-]. destruct parameters as [[name old_owner] new_owner]. simpl.
    destruct (negb _); [exact Hh|].
    apply notify_alive_handler_connected, cleanup_dbus_watch_handler_connected, Hh.
Qed.

(** *** Creation *)

Lemma nm_keep_alive_new_result (f : Z) (s : gmap positive Z) :
  nm_keep_alive_new f s =
  if truth f
  then Some (mkWorld (mkPriv None None None None 0%N true false true false)
                     s [] ∅ 1%N [] ∅ 0%nat [])
  else None.
Proof.
  unfold nm_keep_alive_new, nm_keep_alive_init, g_object_new, _is_alive; simpl.
  destruct (truth f); reflexivity.
Qed.

(** *** Confirmation requests *)

Lemma confirmation_progress_refl (w : World) : confirmation_progress w w.
Proof. split; [|split]; [reflexivity..|]. left. repeat split. Qed.

Lemma confirmation_progress_trans (w1 w2 w3 : World) :
  confirmation_progress w1 w2 -> confirmation_progress w2 w3 ->
  confirmation_progress w1 w3.
Proof.
  intros (Hc1 & Hd1 & P1) (Hc2 & Hd2 & P2).
  split; [congruence|]. split; [congruence|].
  destruct P1 as [(Ha & Hb & Hn)|(Ha & Hb & name & Hname & Hcalls)];
    destruct P2 as [(Ha' & Hb' & Hn')|(Ha' & Hb' & name' & Hname' & Hcalls')].
  - left. repeat split; congruence.
  - right. split; [congruence|]. split; [assumption|].
    exists name'. split; congruence.
  - right. split; [assumption|]. split; [congruence|].
    exists name. split; congruence.
  - congruence.
Qed.

Lemma is_alive_dbus_client_progress (w : World) :
  confirmation_progress w (snd (_is_alive_dbus_client w)).
Proof.
  unfold _is_alive_dbus_client.
  destruct (dbus_client (priv w)) as [name|] eqn:E;
    [|apply confirmation_progress_refl].
  destruct (dbus_client_confirmed (priv w)) eqn:C;
    [apply confirmation_progress_refl|].
  split; [simpl; congruence|]. split; [reflexivity|].
  right. split; [assumption|]. split; [reflexivity|].
  exists name. split; [assumption|reflexivity].
Qed.

Lemma is_alive_progress (w : World) : confirmation_progress w (snd (_is_alive w)).
Proof.
  unfold _is_alive.
  destruct (floating (priv w) || forced (priv w)); [apply confirmation_progress_refl|].
  destruct (match connection (priv w) with Some _ => _ | None => _ end);
    [apply confirmation_progress_refl|].
  pose proof (is_alive_dbus_client_progress w) as P.
  destruct (_is_alive_dbus_client w) as [[] w1]; exact P.
Qed.

Lemma notify_alive_progress (w : World) : confirmation_progress w (_notify_alive w).
Proof.
  unfold _notify_alive.
  pose proof (is_alive_progress w) as P.
  destruct (_is_alive w) as [a w1]; simpl in P.
  destruct (Bool.eqb (alive (priv w1)) a); exact P.
Qed.

(** An assignment that leaves the watch and the requests alone, followed
    by the notification step. *)
Lemma progress_after (w w1 : World) :
  confirmation_progress w w1 -> confirmation_progress w (_notify_alive w1).
Proof.
  intros P. eapply confirmation_progress_trans; [exact P|apply notify_alive_progress].
Qed.

Lemma step_progress (e : event) (w w' : World) :
  rearms_or_tears_down e w = false -> step e w = Some w' ->
  confirmation_progress w w'.
Proof.
  destruct e; simpl; intros T.
  - intros [= <-]. unfold nm_keep_alive_sink.
    destruct (floating (priv w)); [|apply confirmation_progress_refl].
    apply progress_after. split; [|split]; [reflexivity..|]. left. repeat split.
  - intros [= <-]. unfold nm_keep_alive_set_forced.
    destruct (negb _); [|apply confirmation_progress_refl].
    apply progress_after. split; [|split]; [reflexivity..|]. left. repeat split.
  - intros [= <-].
    unfold nm_keep_alive_set_settings_connection_watch_visible,
      _set_settings_connection_watch_visible.
    case_bool_decide; [apply confirmation_progress_refl|].
    change (truth TRUE) with true; cbv iota.
    apply progress_after.
    destruct (connection (priv w)), c; (split; [|split]; [reflexivity..|]);
      left; repeat split.
  - discriminate.
  - intros [= <-]. unfold nm_settings_connection_set_flags.
    destruct (_ =? _); [apply confirmation_progress_refl|].
    case_bool_decide; [apply progress_after|];
      (split; [|split]; [reflexivity..|]); left; repeat split.
  - unfold get_name_owner_cb, nm_streq. destruct res as [owner|[|]]; simpl in T.
    + apply negb_false_iff, bool_decide_eq_true in T. rewrite T.
      rewrite String.eqb_refl. intros [= <-]. apply confirmation_progress_refl.
    + intros [= <-]. apply confirmation_progress_refl.
    + discriminate.
  - intros [= <-]. destruct parameters as [[name old_owner] new_owner]. simpl in *.
    rewrite T. apply confirmation_progress_refl.
Qed.

Lemma watch_run_progress (w w' : World) (es : list event) :
  watch_run w es w' -> confirmation_progress w w'.
Proof.
  induction 1 as [w|w e w1 es w2 T St _ IH].
  - apply confirmation_progress_refl.
  - eapply confirmation_progress_trans; [|exact IH].
    eapply step_progress; eassumption.
Qed.

Lemma presence_queries_progress (n : nat) (w : World) :
  confirmation_progress w (presence_queries n w).
Proof.
  revert w. induction n as [|n IH]; intros w; simpl.
  - apply confirmation_progress_refl.
  - eapply confirmation_progress_trans; [apply is_alive_dbus_client_progress|apply IH].
Qed.

(** What arming leaves behind, before the value is recomputed. *)
Lemma dbus_client_watch_register_armed (c : positive) (a : string) (w : World) :
  dbus_client (priv (dbus_client_watch_register c a w)) = Some a /\
  dbus_connection (priv (dbus_client_watch_register c a w)) = Some c /\
  dbus_client_confirmed (priv (dbus_client_watch_register c a w)) = false /\
  subscriptions (dbus_client_watch_register c a w)
    !! (c, subscription_id (priv (dbus_client_watch_register c a w))) = Some a.
Proof.
  repeat split. simpl. apply lookup_insert_eq.
Qed.

Lemma new_settled (f : Z) (s : gmap positive Z) (w : World) :
  nm_keep_alive_new f s = Some w ->
  floating (priv w) = true /\ alive (priv w) = true /\
  settled w /\ handler_connected w.
Proof.
  rewrite nm_keep_alive_new_result.
  destruct (truth f); [|discriminate]. intros [= <-]. repeat split.
Qed.

Lemma step_settled (e : event) (w w' : World) :
  settled w -> handler_connected w -> step e w = Some w' ->
  settled w' /\ handler_connected w'.
Proof.
  intros S Hh St. split.
  - apply (step_recomputed e w w' S Hh St).
  - apply (step_handler_connected e w w' Hh St).
Qed.

Lemma reachable_settled (w : World) :
  reachable w -> settled w /\ handler_connected w.
Proof.
  induction 1 as [f s w Hn|e w w' _ [S Hh] St].
  - destruct (new_settled f s w Hn) as (_ & _ & S & Hh). split; assumption.
  - apply (step_settled e w w' S Hh St).
Qed.

Lemma notify_alive_calls (w : World) :
  calls (_notify_alive w) = calls (snd (_is_alive w)).
Proof.
  unfold _notify_alive. destruct (_is_alive w) as [a w1]; simpl.
  destruct (Bool.eqb (alive (priv w1)) a); reflexivity.
Qed.

Lemma is_alive_calls (w : World) :
  calls (snd (_is_alive w))
  = if floating (priv w) || forced (priv w) || visibility w then calls w
    else calls (snd (_is_alive_dbus_client w)).
Proof.
  unfold _is_alive, visibility.
  destruct (floating (priv w) || forced (priv w)); [reflexivity|]. simpl.
  destruct (match connection (priv w) with Some _ => _ | None => _ end); [reflexivity|].
  destruct (_is_alive_dbus_client w) as [[] w1]; reflexivity.
Qed.

(** Arming, then the recomputation: a request goes out at once unless the
    tracker is floating, forced or visibly connected. *)
Lemma set_dbus_client_watch_calls (c : positive) (a : string) (w : World) :
  calls (nm_keep_alive_set_dbus_client_watch c (Some a) w)
  = if floating (priv w) || forced (priv w) || visibility w then calls w
    else mkCall (Some c) a (next_cancellable w) :: calls w.
Proof.
  unfold nm_keep_alive_set_dbus_client_watch.
  rewrite notify_alive_calls, is_alive_calls.
  pose proof (cleanup_dbus_watch_frame w)
    as (Hc & Hfl & Hfo & _ & _ & Hs & _ & Hcalls & Hk & _).
  set (w1 := cleanup_dbus_watch w) in *.
  assert (visibility (dbus_client_watch_register c a w1) = visibility w) as ->.
  { unfold visibility, nm_settings_connection_get_flags. simpl. rewrite Hc, Hs.
    reflexivity. }
  simpl. rewrite Hfl, Hfo, Hcalls, Hk. reflexivity.
Qed.

Lemma presence_queries_confirmed (n : nat) (w : World) :
  dbus_client_confirmed (priv w) = true -> presence_queries n w = w.
Proof.
  intros C. induction n as [|n IH]; [reflexivity|]. simpl.
  unfold _is_alive_dbus_client. rewrite C.
  destruct (dbus_client (priv w)); exact IH.
Qed.

(** After arming, the first presence query sends the request and the
    later ones send nothing. *)
Lemma presence_queries_calls (c : positive) (a : string) (w : World) (n : nat) :
  calls (presence_queries n (dbus_client_watch_register c a w))
  = match n with
    | O => calls w
    | S _ => mkCall (Some c) a (next_cancellable w) :: calls w
    end.
Proof.
  destruct n as [|n]; [reflexivity|]. simpl.
  rewrite presence_queries_confirmed; reflexivity.
Qed.

Lemma cleanup_dbus_watch_idempotent (w : World) :
  cleanup_dbus_watch (cleanup_dbus_watch w) = cleanup_dbus_watch w.
Proof. apply cleanup_dbus_watch_unarmed, cleanup_dbus_watch_client. Qed.

(** ** Main results *)

(** C1. In every state of the tracker the recomputed liveness value,
    that is the value [_is_alive] returns and the value [nm_keep_alive_is_alive]
    reads after the notification step, is the one the precedence-ordered
    rule derives from the floating flag, the forced flag, the presence and
    visibility of the visibility source, and the presence of a watched
    client. *)
Theorem is_alive_follows_derivation_rule (w : World) :
  fst (_is_alive w)
  = derive (floating (priv w)) (forced (priv w)) (visibility w) (watch_present w)
  /\ nm_keep_alive_is_alive (_notify_alive w)
     = derive (floating (priv w)) (forced (priv w)) (visibility w) (watch_present w).
Proof.
  split; [apply is_alive_value|].
  unfold nm_keep_alive_is_alive.
  pose proof (notify_alive_recomputed w) as [R _].
  rewrite R, notify_alive_derived. reflexivity.
Qed.

(** C2. The notification step emits a notification exactly if the derived
    value differs from the cached one; and so does every event (sink, set
    forced, a change of the watched source or of its flags, a change of the
    watched client, the completion of the confirmation, a change of the
    name's owner) that reaches a tracker whose cache is settled, as it is in
    every state a tracker can reach. Setting forced to the value it has
    changes nothing, and neither does a second sink. *)
Theorem notification_iff_value_changes :
  (forall w : World,
      notified (_notify_alive w)
      = if Bool.eqb (derived (_notify_alive w)) (alive (priv w)) then notified w
        else derived (_notify_alive w) :: notified w) /\
  (forall (e : event) (w w' : World),
      settled w -> handler_connected w -> step e w = Some w' ->
      notified w'
      = if Bool.eqb (derived w') (alive (priv w)) then notified w
        else derived w' :: notified w) /\
  (forall (e : event) (w w' : World),
      reachable w -> step e w = Some w' ->
      notified w'
      = if Bool.eqb (derived w') (alive (priv w)) then notified w
        else derived w' :: notified w) /\
  (forall (f : Z) (w : World),
      truth f = forced (priv w) -> nm_keep_alive_set_forced f w = w) /\
  (forall w : World,
      nm_keep_alive_sink (nm_keep_alive_sink w) = nm_keep_alive_sink w).
Proof.
  split; [|split; [|split; [|split]]].
  - intros w. apply notify_alive_recomputed.
  - intros e w w' S Hh St. apply (step_recomputed e w w' S Hh St).
  - intros e w w' R St. destruct (reachable_settled w R) as [S Hh].
    apply (step_recomputed e w w' S Hh St).
  - intros f w Hf. unfold nm_keep_alive_set_forced.
    rewrite Hf, Bool.eqb_reflx. reflexivity.
  - intros w. unfold nm_keep_alive_sink at 2 3.
    destruct (floating (priv w)) eqn:F.
    + unfold nm_keep_alive_sink.
      pose proof (notify_alive_frame (with_priv (set_floating false) w))
        as (_ & _ & _ & _ & Hfl & _).
      rewrite Hfl. reflexivity.
    + unfold nm_keep_alive_sink. rewrite F. reflexivity.
Qed.

(** C3. Creation succeeds exactly for a true floating argument (the
    assertion at its end fails otherwise), and the tracker it returns is
    floating and alive, with the cache equal to the derived value. Every
    event keeps the cache equal to the derived value, which therefore holds
    in every state a tracker can reach. *)
Theorem created_floating_alive_and_cache_kept :
  (forall (f : Z) (s : gmap positive Z) (w : World),
      nm_keep_alive_new f s = Some w ->
      floating (priv w) = true /\ alive (priv w) = true /\
      settled w /\ handler_connected w) /\
  (forall (f : Z) (s : gmap positive Z),
      f <> 0 -> is_Some (nm_keep_alive_new f s)) /\
  (forall (e : event) (w w' : World),
      settled w -> handler_connected w -> step e w = Some w' ->
      settled w' /\ handler_connected w') /\
  (forall w : World, reachable w -> settled w /\ handler_connected w).
Proof.
  split; [exact new_settled|]. split; [|split].
  - intros f s Hf. rewrite nm_keep_alive_new_result.
    unfold truth. destruct (Z.eqb_spec f 0); [contradiction|]. simpl. eauto.
  - exact step_settled.
  - exact reachable_settled.
Qed.

(** C5 (amended). A call that passes a visibility source other than the
    watched one replaces the source, recomputes the value and runs the
    notification step, as the specification has it. A call that passes the
    source already watched returns at once and leaves everything as it
    was. *)
Theorem watch_visible_recomputes_unless_same_source
    (c : option positive) (w : World) :
  (connection (priv w) <> c ->
   nm_keep_alive_set_settings_connection_watch_visible c w
   = watchVisibilitySource_spec c w /\
   connection (priv (nm_keep_alive_set_settings_connection_watch_visible c w)) = c /\
   recomputed_and_notified w (nm_keep_alive_set_settings_connection_watch_visible c w)) /\
  (connection (priv w) = c ->
   nm_keep_alive_set_settings_connection_watch_visible c w = w).
Proof.
  unfold nm_keep_alive_set_settings_connection_watch_visible,
    _set_settings_connection_watch_visible, watchVisibilitySource_spec.
  change (truth TRUE) with true; cbv iota.
  split; intros Hc; case_bool_decide; try contradiction; [|reflexivity].
  split; [reflexivity|]. split.
  - match goal with |- connection (priv (_notify_alive ?x)) = _ =>
      pose proof (notify_alive_frame x) as (-> & _) end.
    destruct (connection (priv w)), c; try congruence; reflexivity.
  - apply recomputed_after; destruct (connection (priv w)), c; reflexivity.
Qed.

(** C4 (amended). Confirmation is deferred to the first presence query:
    arming sends no request by itself, and the recomputation that follows
    it sends none while the tracker is floating, forced or visibly
    connected; otherwise that recomputation asks for the client's presence
    and the request goes out within the arming call. After arming, the
    first presence query sends the request, and only the first. *)
Theorem confirmation_deferred_to_first_presence_query
    (c : positive) (a : string) (w : World) :
  calls (dbus_client_watch_register c a (cleanup_dbus_watch w)) = calls w /\
  calls (nm_keep_alive_set_dbus_client_watch c (Some a) w)
  = (if floating (priv w) || forced (priv w) || visibility w then calls w
     else mkCall (Some c) a (next_cancellable w) :: calls w) /\
  (forall n : nat,
      calls (presence_queries n (dbus_client_watch_register c a w))
      = match n with
        | O => calls w
        | S _ => mkCall (Some c) a (next_cancellable w) :: calls w
        end).
Proof.
  split; [|split].
  - pose proof (cleanup_dbus_watch_frame w) as (_ & _ & _ & _ & _ & _ & _ & Hcalls & _).
    exact Hcalls.
  - apply set_dbus_client_watch_calls.
  - apply presence_queries_calls.
Qed.

(** C6. When the confirmation completes: cancelled, the callback changes
    nothing; failed otherwise, or answered with an owner other than the
    watched client, the watch is torn down and the value recomputed, with
    a notification if it changed; answered with the watched client, the
    callback changes nothing. *)
Theorem get_name_owner_cb_outcomes (w : World) :
  get_name_owner_cb (Failed true) w = Some w /\
  get_name_owner_cb (Failed false) w = Some (_notify_alive (cleanup_dbus_watch w)) /\
  (forall client owner : string,
      dbus_client (priv w) = Some client -> owner <> client ->
      get_name_owner_cb (Reply owner) w = Some (_notify_alive (cleanup_dbus_watch w))) /\
  (forall client : string,
      dbus_client (priv w) = Some client ->
      get_name_owner_cb (Reply client) w = Some w) /\
  dbus_client (priv (_notify_alive (cleanup_dbus_watch w))) = None /\
  recomputed_and_notified w (_notify_alive (cleanup_dbus_watch w)).
Proof.
  split; [reflexivity|]. split; [reflexivity|].
  split; [|split; [|apply teardown_recomputed]].
  - intros client owner Hc Hne. unfold get_name_owner_cb, nm_streq. rewrite Hc.
    destruct (String.eqb_spec owner client); [contradiction|reflexivity].
  - intros client Hc. unfold get_name_owner_cb, nm_streq. rewrite Hc, String.eqb_refl.
    reflexivity.
Qed.

(** C7. After one arming, whatever events follow that neither arm anew nor
    tear the watch down, at most one confirmation request has gone out, and
    so after any number of presence queries; and arming sets the confirmed
    flag to false before the value is recomputed. *)
Theorem at_most_one_confirmation_per_arming
    (c : positive) (a : string) (w w' : World) (es : list event) :
  watch_run (nm_keep_alive_set_dbus_client_watch c (Some a) w) es w' ->
  (calls w' = calls w \/
   calls w' = mkCall (Some c) a (next_cancellable w) :: calls w) /\
  (forall n : nat,
      (length (calls (presence_queries n (dbus_client_watch_register c a w)))
       <= S (length (calls w)))%nat) /\
  nm_keep_alive_set_dbus_client_watch c (Some a) w
  = _notify_alive (dbus_client_watch_register c a (cleanup_dbus_watch w)) /\
  dbus_client_confirmed (priv (dbus_client_watch_register c a (cleanup_dbus_watch w)))
  = false.
Proof.
  intros R. split; [|split; [|split; reflexivity]].
  - pose proof (watch_run_progress _ _ _ R) as P.
    unfold nm_keep_alive_set_dbus_client_watch in P.
    pose proof (confirmation_progress_trans _ _ _
                  (notify_alive_progress _) P) as (_ & _ & Q).
    pose proof (cleanup_dbus_watch_frame w)
      as (_ & _ & _ & _ & _ & _ & _ & Hcalls & Hk & _).
    simpl in Q. rewrite Hcalls, Hk in Q.
    destruct Q as [(Q & _)|(_ & _ & name & [= <-] & Q)]; [left|right]; exact Q.
  - intros n. rewrite presence_queries_calls. destruct n; simpl; lia.
Qed.

(** C8. When the owner of the watched name changes: to the empty string,
    the watch is torn down and the value recomputed, with a notification if
    it changed; to anything else, the callback changes nothing. *)
Theorem name_owner_changed_cb_outcomes (name old_owner new_owner : string) (w : World) :
  (new_owner = ""%string ->
   name_owner_changed_cb (name, old_owner, new_owner) w
   = _notify_alive (cleanup_dbus_watch w) /\
   dbus_client (priv (name_owner_changed_cb (name, old_owner, new_owner) w)) = None /\
   recomputed_and_notified w (name_owner_changed_cb (name, old_owner, new_owner) w)) /\
  (new_owner <> ""%string ->
   name_owner_changed_cb (name, old_owner, new_owner) w = w).
Proof.
  unfold name_owner_changed_cb, nm_streq0.
  destruct (String.eqb_spec new_owner ""); simpl; split; intros Hn;
    try contradiction; [|reflexivity].
  split; [reflexivity|]. apply teardown_recomputed.
Qed.

(** C9. Tearing down an armed watch forgets the client, cancels and forgets
    the pending confirmation, and removes the subscription of the watch's
    bus connection; the subscription that arming made is gone after it.
    With no watch armed teardown changes nothing, so a second teardown
    changes nothing. *)
Theorem cleanup_dbus_watch_tears_down :
  (forall (w : World) (client : string),
      dbus_client (priv w) = Some client ->
      dbus_client (priv (cleanup_dbus_watch w)) = None /\
      dbus_client_confirm_cancellable (priv (cleanup_dbus_watch w)) = None /\
      (forall k : nat,
          dbus_client_confirm_cancellable (priv w) = Some k ->
          k ∈ cancelled (cleanup_dbus_watch w)) /\
      (forall c : positive,
          dbus_connection (priv w) = Some c ->
          subscriptions (cleanup_dbus_watch w) !! (c, subscription_id (priv w)) = None /\
          dbus_connection (priv (cleanup_dbus_watch w)) = None)) /\
  (forall (c : positive) (a : string) (w : World),
      subscriptions (nm_keep_alive_set_dbus_client_watch c (Some a) w)
        !! (c, subscription_id (priv (nm_keep_alive_set_dbus_client_watch c (Some a) w)))
      = Some a /\
      subscriptions (cleanup_dbus_watch (nm_keep_alive_set_dbus_client_watch c (Some a) w))
        !! (c, subscription_id (priv (nm_keep_alive_set_dbus_client_watch c (Some a) w)))
      = None) /\
  (forall w : World, dbus_client (priv w) = None -> cleanup_dbus_watch w = w) /\
  (forall w : World,
      cleanup_dbus_watch (cleanup_dbus_watch w) = cleanup_dbus_watch w).
Proof.
  assert (forall (w : World) (client : string),
      dbus_client (priv w) = Some client ->
      dbus_client (priv (cleanup_dbus_watch w)) = None /\
      dbus_client_confirm_cancellable (priv (cleanup_dbus_watch w)) = None /\
      (forall k : nat,
          dbus_client_confirm_cancellable (priv w) = Some k ->
          k ∈ cancelled (cleanup_dbus_watch w)) /\
      (forall c : positive,
          dbus_connection (priv w) = Some c ->
          subscriptions (cleanup_dbus_watch w) !! (c, subscription_id (priv w)) = None /\
          dbus_connection (priv (cleanup_dbus_watch w)) = None)) as Armed.
  { intros w client Hcl.
    unfold cleanup_dbus_watch, nm_clear_g_cancellable. rewrite Hcl.
    destruct_world w; simpl in *.
    repeat match goal with
           | |- context [match ?x with Some _ => _ | None => _ end] =>
               is_var x; destruct x; simpl
           end;
      (split; [reflexivity|]); (split; [reflexivity|]);
      (split;
       [intros k Hk; simplify_eq; set_solver
       |intros c Hc; simplify_eq; split; first [apply lookup_delete_eq|reflexivity]]). }
  split; [exact Armed|]. split; [|split].
  - intros c a w.
    set (w1 := nm_keep_alive_set_dbus_client_watch c (Some a) w).
    pose proof (dbus_client_watch_register_armed c a (cleanup_dbus_watch w))
      as (Hcl & Hdc & _ & Hsub).
    pose proof (notify_alive_frame (dbus_client_watch_register c a (cleanup_dbus_watch w)))
      as (_ & Hdc' & Hcl' & Hid' & _ & _ & _ & _ & Hsubs' & _).
    fold (nm_keep_alive_set_dbus_client_watch c (Some a) w) in Hdc', Hcl', Hid', Hsubs'.
    fold w1 in Hdc', Hcl', Hid', Hsubs'.
    split.
    + rewrite Hsubs', Hid'. exact Hsub.
    + destruct (Armed w1 a) as (_ & _ & _ & Hrel); [congruence|].
      apply Hrel. congruence.
  - apply cleanup_dbus_watch_unarmed.
  - apply cleanup_dbus_watch_idempotent.
Qed.

(** C10. Sinking never changes the forced flag, the visibility source or
    the watched client, nor the bus connection and subscription of the
    watch; of the tracker's fields only the floating flag, the cached
    value, the confirmed flag and the pending confirmation can differ
    afterwards. Outside the tracker it leaves the settings, the connected
    handler, the subscriptions and the cancelled requests alone. *)
Theorem sink_frame (w : World) :
  forced (priv (nm_keep_alive_sink w)) = forced (priv w) /\
  connection (priv (nm_keep_alive_sink w)) = connection (priv w) /\
  dbus_client (priv (nm_keep_alive_sink w)) = dbus_client (priv w) /\
  dbus_connection (priv (nm_keep_alive_sink w)) = dbus_connection (priv w) /\
  subscription_id (priv (nm_keep_alive_sink w)) = subscription_id (priv w) /\
  settings (nm_keep_alive_sink w) = settings w /\
  flags_changed_handlers (nm_keep_alive_sink w) = flags_changed_handlers w /\
  subscriptions (nm_keep_alive_sink w) = subscriptions w /\
  cancelled (nm_keep_alive_sink w) = cancelled w.
Proof.
  unfold nm_keep_alive_sink.
  destruct (floating (priv w)); [|repeat split].
  pose proof (notify_alive_frame (with_priv (set_floating false) w))
    as (H1 & H2 & H3 & H4 & _ & H6 & H7 & H8 & H9 & _ & H11).
  repeat split; assumption.
Qed.

End Properties.

(** ** More properties *)

Section MoreProperties.
Context `{visible : VisibleFlag}.

Lemma notify_alive_unfold (w : World) :
  _notify_alive w
  = let w1 := if floating (priv w) || forced (priv w) || visibility w then w
              else snd (_is_alive_dbus_client w) in
    if Bool.eqb (alive (priv w)) (derived w) then w1
    else _notify (with_priv (set_alive (derived w)) w1).
Proof.
  unfold _notify_alive, _is_alive, derived, derive, visibility, watch_present,
    _is_alive_dbus_client.
  destruct (floating (priv w)), (forced (priv w)); simpl;
    try (destruct (alive (priv w)); reflexivity).
  destruct (match connection (priv w) with Some _ => _ | None => _ end); simpl;
    try (destruct (alive (priv w)); reflexivity).
  destruct (dbus_client (priv w)); simpl;
    try (destruct (alive (priv w)); reflexivity).
  destruct (dbus_client_confirmed (priv w)); simpl;
    destruct (alive (priv w)); reflexivity.
Qed.


(** *** The notification step, run again *)

Lemma notify_alive_lazily_confirmed (w : World) : lazily_confirmed (_notify_alive w).
Proof.
  unfold lazily_confirmed.
  pose proof (notify_alive_frame w) as (Hc & _ & Hcl & _ & Hfl & Hfo & Hs & _).
  assert (visibility (_notify_alive w) = visibility w) as ->.
  { unfold visibility, nm_settings_connection_get_flags. rewrite Hc, Hs. reflexivity. }
  rewrite Hfl, Hfo, Hcl. clear Hc Hcl Hfl Hfo Hs.
  rewrite notify_alive_unfold. cbv zeta.
  destruct (floating (priv w) || forced (priv w) || visibility w); [reflexivity|].
  unfold _is_alive_dbus_client.
  destruct (dbus_client (priv w)); [|intros _ Hn; contradiction].
  destruct (dbus_client_confirmed (priv w)) eqn:C;
    destruct (Bool.eqb (alive (priv w)) (derived w)); simpl; rewrite ?C;
    intros; discriminate.
Qed.

Lemma presence_query_noop (w : World) :
  lazily_confirmed w ->
  floating (priv w) || forced (priv w) || visibility w = false ->
  snd (_is_alive_dbus_client w) = w.
Proof.
  unfold lazily_confirmed, _is_alive_dbus_client. intros L Hf.
  destruct (dbus_client (priv w)); [|reflexivity].
  destruct (dbus_client_confirmed (priv w)); [reflexivity|].
  rewrite L in Hf; [discriminate|reflexivity|discriminate].
Qed.

Lemma notify_alive_noop (w : World) :
  settled w -> lazily_confirmed w -> _notify_alive w = w.
Proof.
  intros S L. rewrite notify_alive_unfold. cbv zeta.
  rewrite S, Bool.eqb_reflx.
  destruct (floating (priv w) || forced (priv w) || visibility w) eqn:F; [reflexivity|].
  apply presence_query_noop; assumption.
Qed.

Lemma notify_alive_idem (w : World) : _notify_alive (_notify_alive w) = _notify_alive w.
Proof.
  apply notify_alive_noop.
  - apply notify_alive_recomputed.
  - apply notify_alive_lazily_confirmed.
Qed.

(** *** Notifications and the cached value *)

(** One notification exactly if the cached value changed, with the new
    value. *)
Lemma recomputed_edge (w w' : World) :
  recomputed_and_notified w w' ->
  notified w' = if Bool.eqb (alive (priv w')) (alive (priv w)) then notified w
                else alive (priv w') :: notified w.
Proof. intros [R1 R2]. rewrite R1. exact R2. Qed.

Lemma unchanged_edge (w w' : World) :
  alive (priv w') = alive (priv w) -> notified w' = notified w ->
  notified w' = if Bool.eqb (alive (priv w')) (alive (priv w)) then notified w
                else alive (priv w') :: notified w.
Proof. intros -> ->. rewrite Bool.eqb_reflx. reflexivity. Qed.

Lemma step_edge (e : event) (w w' : World) :
  step e w = Some w' ->
  notified w' = if Bool.eqb (alive (priv w')) (alive (priv w)) then notified w
                else alive (priv w') :: notified w.
Proof.
  destruct e; simpl.
  - intros [= <-]. unfold nm_keep_alive_sink.
    destruct (floating (priv w)); [|apply unchanged_edge; reflexivity].
    apply recomputed_edge, recomputed_after; reflexivity.
  - intros [= <-]. unfold nm_keep_alive_set_forced.
    destruct (negb _); [|apply unchanged_edge; reflexivity].
    apply recomputed_edge, recomputed_after; reflexivity.
  - intros [= <-].
    unfold nm_keep_alive_set_settings_connection_watch_visible,
      _set_settings_connection_watch_visible.
    case_bool_decide; [apply unchanged_edge; reflexivity|].
    change (truth TRUE) with true; cbv iota.
    apply recomputed_edge, recomputed_after;
      destruct (connection (priv w)), c; reflexivity.
  - intros [= <-]. apply recomputed_edge, set_dbus_client_watch_recomputed.
  - intros [= <-]. unfold nm_settings_connection_set_flags.
    destruct (_ =? _); [apply unchanged_edge; reflexivity|].
    case_bool_decide; [|apply unchanged_edge; reflexivity].
    apply recomputed_edge, recomputed_after; reflexivity.
  - unfold get_name_owner_cb, nm_streq. destruct res as [owner|[|]].
    + destruct (dbus_client (priv w)); [|discriminate].
      destruct (String.eqb owner s); intros [= <-];
        [apply unchanged_edge; reflexivity|].
      apply recomputed_edge, teardown_recomputed.
    + intros [= <-]. apply unchanged_edge; reflexivity.
    + intros [= <-]. apply recomputed_edge, teardown_recomputed.
  - intros [= <-]. destruct parameters as [[name old_owner] new_owner]. simpl.
    destruct (negb _); [apply unchanged_edge; reflexivity|].
    apply recomputed_edge, teardown_recomputed.
Qed.

Lemma alternating_step (w w' : World) :
  notified w' = (if Bool.eqb (alive (priv w')) (alive (priv w)) then notified w
                 else alive (priv w') :: notified w) ->
  alive (priv w) = Nat.even (length (notified w)) /\
  notified w = alternating (length (notified w)) (alive (priv w)) ->
  alive (priv w') = Nat.even (length (notified w')) /\
  notified w' = alternating (length (notified w')) (alive (priv w')).
Proof.
  intros E [P A].
  destruct (Bool.eqb (alive (priv w')) (alive (priv w))) eqn:Q.
  - apply Bool.eqb_prop in Q. rewrite E, Q. split; assumption.
  - apply Bool.eqb_false_iff in Q.
    assert (alive (priv w') = negb (alive (priv w))) as N
        by (destruct (alive (priv w')), (alive (priv w)); simpl; congruence).
    rewrite E. cbn [length alternating]. split.
    + rewrite N, P, Nat.even_succ, <- Nat.negb_even. reflexivity.
    + f_equal. rewrite N, Bool.negb_involutive. exact A.
Qed.

Lemma reachable_alternating (w : World) :
  reachable w ->
  alive (priv w) = Nat.even (length (notified w)) /\
  notified w = alternating (length (notified w)) (alive (priv w)).
Proof.
  induction 1 as [f s w Hn|e w w' _ IH St].
  - rewrite nm_keep_alive_new_result in Hn.
    destruct (truth f); [|discriminate]. injection Hn as <-. split; reflexivity.
  - exact (alternating_step w w' (step_edge e w w' St) IH).
Qed.

(** *** The resources of the client watch *)

Lemma watch_resources_same (w w' : World) :
  same_watch w w' -> watch_resources w -> watch_resources w'.
Proof.
  intros (Hd & Hc & Hk & Hi & _ & Hs & _). unfold watch_resources.
  rewrite Hd, Hc, Hk, Hi, Hs. trivial.
Qed.

Lemma requests_accounted_same (w w' : World) :
  same_watch w w' -> requests_accounted w -> requests_accounted w'.
Proof.
  intros (Hd & Hc & Hk & _ & Hf & _ & _ & Hcalls & Hx & Hn).
  unfold requests_accounted. rewrite Hd, Hc, Hk, Hf, Hcalls, Hx, Hn. trivial.
Qed.

Lemma same_watch_refl (w : World) : same_watch w w.
Proof. repeat split. Qed.

Lemma cleanup_dbus_watch_resources (w : World) :
  watch_resources w ->
  dbus_client (priv (cleanup_dbus_watch w)) = None /\
  watch_resources (cleanup_dbus_watch w).
Proof.
  intros R. split; [apply cleanup_dbus_watch_client|].
  unfold watch_resources in *. rewrite cleanup_dbus_watch_client.
  unfold cleanup_dbus_watch, nm_clear_g_cancellable.
  destruct (dbus_client (priv w)) as [a|] eqn:E.
  - destruct R as (c & Hd & Hs).
    destruct_world w; simpl in *. subst.
    repeat match goal with
           | |- context [match ?x with Some _ => _ | None => _ end] =>
               is_var x; destruct x; simpl
           end; rewrite delete_singleton_eq; repeat split.
  - exact R.
Qed.

Lemma cleanup_dbus_watch_accounted (w : World) :
  requests_accounted w -> requests_accounted (cleanup_dbus_watch w).
Proof.
  intros R.
  unfold cleanup_dbus_watch, nm_clear_g_cancellable.
  destruct (dbus_client (priv w)) as [a|] eqn:E; [|exact R].
  destruct R as (Hnd & Hp & Hc).
  assert (forall call : GetNameOwnerCall, call ∈ calls w ->
            (call_cancellable call < next_cancellable w)%nat /\
            (call_cancellable call ∈ cancelled w \/
             dbus_client_confirm_cancellable (priv w) = Some (call_cancellable call)))
    as Hc'.
  { intros call Hin. destruct (Hc call Hin) as [Hlt [Hx|(Hk & _)]]; auto. }
  clear Hc Hp E.
  destruct_world w; simpl in *.
  repeat match goal with
         | |- context [match ?x with Some _ => _ | None => _ end] =>
             is_var x; destruct x; simpl
         end;
    (split; [exact Hnd|]); (split; [discriminate|]);
    intros call Hin; destruct (Hc' call Hin) as [Hlt [Hx|Hk]];
    (split; [exact Hlt|]); left;
    first [exact Hx
          |apply elem_of_union_r; exact Hx
          |injection Hk as ->; apply elem_of_union_l, elem_of_singleton; reflexivity
          |discriminate].
Qed.

Lemma dbus_client_watch_register_resources (c : positive) (a : string) (w : World) :
  dbus_client (priv w) = None -> watch_resources w ->
  watch_resources (dbus_client_watch_register c a w).
Proof.
  unfold watch_resources. intros E. rewrite E. intros (_ & _ & Hs).
  simpl. exists c. split; [reflexivity|]. rewrite Hs. apply insert_empty.
Qed.

Lemma dbus_client_watch_register_accounted (c : positive) (a : string) (w : World) :
  dbus_client_confirm_cancellable (priv w) = None -> requests_accounted w ->
  requests_accounted (dbus_client_watch_register c a w).
Proof.
  intros E (Hnd & Hp & Hc). unfold requests_accounted. simpl. rewrite E.
  split; [exact Hnd|]. split; [discriminate|].
  intros call Hin. destruct (Hc call Hin) as [Hlt [Hx|(Hk & _)]].
  - split; [exact Hlt|]. left. exact Hx.
  - rewrite E in Hk. discriminate.
Qed.

Lemma presence_query_resources (w : World) :
  watch_resources w -> watch_resources (snd (_is_alive_dbus_client w)).
Proof.
  unfold watch_resources, _is_alive_dbus_client.
  destruct (dbus_client (priv w)) as [a|] eqn:E; simpl; [|rewrite E; trivial].
  destruct (dbus_client_confirmed (priv w)); simpl; rewrite E; trivial.
Qed.

Lemma presence_query_accounted (w : World) :
  requests_accounted w -> requests_accounted (snd (_is_alive_dbus_client w)).
Proof.
  intros R. unfold _is_alive_dbus_client.
  destruct (dbus_client (priv w)) as [a|] eqn:E; [|exact R].
  destruct (dbus_client_confirmed (priv w)) eqn:C; [exact R|].
  destruct R as (Hnd & Hp & Hc).
  assert (dbus_client_confirm_cancellable (priv w) = None) as Hk.
  { destruct (dbus_client_confirm_cancellable (priv w)) as [k|]; [|reflexivity].
    destruct (Hp k eq_refl) as [_ Hf]. congruence. }
  unfold requests_accounted. simpl. split; [|split].
  - apply NoDup_cons. split; [|exact Hnd].
    intros Hin. apply list_elem_of_fmap in Hin as (call & Heq & Hin).
    destruct (Hc call Hin) as [Hlt _]. lia.
  - intros k [= <-]. split; [lia|reflexivity].
  - intros call Hin. apply elem_of_cons in Hin as [->|Hin]; simpl.
    + split; [lia|]. right. repeat split. exact E.
    + destruct (Hc call Hin) as [Hlt [Hx|(Hk' & _)]]; [|congruence].
      split; [lia|]. left. exact Hx.
Qed.

Lemma notify_alive_resources (w : World) :
  watch_resources w -> watch_resources (_notify_alive w).
Proof.
  intros R. rewrite notify_alive_unfold. cbv zeta.
  assert (watch_resources
            (if floating (priv w) || forced (priv w) || visibility w then w
             else snd (_is_alive_dbus_client w))) as R1
      by (destruct (_ || _); [exact R|apply presence_query_resources, R]).
  destruct (Bool.eqb _ _); [exact R1|].
  eapply watch_resources_same; [|exact R1]. repeat split.
Qed.

Lemma notify_alive_accounted (w : World) :
  requests_accounted w -> requests_accounted (_notify_alive w).
Proof.
  intros R. rewrite notify_alive_unfold. cbv zeta.
  assert (requests_accounted
            (if floating (priv w) || forced (priv w) || visibility w then w
             else snd (_is_alive_dbus_client w))) as R1
      by (destruct (_ || _); [exact R|apply presence_query_accounted, R]).
  destruct (Bool.eqb _ _); [exact R1|].
  eapply requests_accounted_same; [|exact R1]. repeat split.
Qed.

Lemma confirmation_on_record_same (w w' : World) :
  same_watch w w' -> confirmation_on_record w -> confirmation_on_record w'.
Proof.
  intros (Hd & Hc & Hk & _ & Hf & _ & _ & Hcalls & Hx & Hn).
  unfold confirmation_on_record. rewrite Hd, Hc, Hk, Hf, Hcalls, Hx, Hn. trivial.
Qed.

Lemma cleanup_dbus_watch_on_record (w : World) :
  requests_accounted w -> confirmation_on_record w ->
  confirmation_on_record (cleanup_dbus_watch w).
Proof.
  intros (_ & Hp & _) O. unfold confirmation_on_record.
  rewrite cleanup_dbus_watch_client. split; [|discriminate].
  destruct O as [Hlt _].
  pose proof (cleanup_dbus_watch_frame w)
    as (_ & _ & _ & _ & _ & _ & _ & _ & Hn & _).
  rewrite Hn. clear Hn.
  unfold cleanup_dbus_watch, nm_clear_g_cancellable.
  destruct (dbus_client (priv w)); [|exact Hlt].
  destruct (dbus_client_confirm_cancellable (priv w)) as [k0|] eqn:E.
  - destruct (Hp k0 eq_refl) as [Hk0 _].
    assert (forall k : nat, k ∈ {[k0]} ∪ cancelled w -> (k < next_cancellable w)%nat)
      as Hlt'.
    { intros k Hin. apply elem_of_union in Hin as [Hin|Hin]; [|auto].
      apply elem_of_singleton in Hin. subst. exact Hk0. }
    simpl. destruct (dbus_connection (priv w)); exact Hlt'.
  - simpl. destruct (dbus_connection (priv w)); exact Hlt.
Qed.

Lemma dbus_client_watch_register_on_record (c : positive) (a : string) (w : World) :
  confirmation_on_record w ->
  confirmation_on_record (dbus_client_watch_register c a w).
Proof.
  intros [Hlt _]. split; [exact Hlt|]. simpl. intros a0 _ Hf. discriminate.
Qed.

Lemma presence_query_on_record (w : World) :
  confirmation_on_record w -> confirmation_on_record (snd (_is_alive_dbus_client w)).
Proof.
  intros O. unfold _is_alive_dbus_client.
  destruct (dbus_client (priv w)) as [a|] eqn:E; [|exact O].
  destruct (dbus_client_confirmed (priv w)) eqn:C; [exact O|].
  destruct O as [Hlt _]. split; simpl.
  - intros k Hin. specialize (Hlt k Hin). lia.
  - rewrite E. intros a' [= <-] _. exists (next_cancellable w).
    split; [reflexivity|]. split.
    + intros Hin. specialize (Hlt _ Hin). lia.
    + apply list_elem_of_here.
Qed.

Lemma notify_alive_on_record (w : World) :
  confirmation_on_record w -> confirmation_on_record (_notify_alive w).
Proof.
  intros R. rewrite notify_alive_unfold. cbv zeta.
  assert (confirmation_on_record
            (if floating (priv w) || forced (priv w) || visibility w then w
             else snd (_is_alive_dbus_client w))) as R1
      by (destruct (_ || _); [exact R|apply presence_query_on_record, R]).
  destruct (Bool.eqb _ _); [exact R1|].
  eapply confirmation_on_record_same; [|exact R1]. repeat split.
Qed.

Lemma step_on_record (e : event) (w w' : World) :
  requests_accounted w -> confirmation_on_record w -> step e w = Some w' ->
  confirmation_on_record w'.
Proof.
  intros A O. destruct e; simpl.
  - intros [= <-]. unfold nm_keep_alive_sink.
    destruct (floating (priv w)); [|exact O].
    apply notify_alive_on_record. exact O.
  - intros [= <-]. unfold nm_keep_alive_set_forced.
    destruct (negb _); [|exact O].
    apply notify_alive_on_record. exact O.
  - intros [= <-].
    unfold nm_keep_alive_set_settings_connection_watch_visible,
      _set_settings_connection_watch_visible.
    case_bool_decide; [exact O|].
    change (truth TRUE) with true; cbv iota.
    apply notify_alive_on_record.
    eapply confirmation_on_record_same; [|exact O].
    destruct (connection (priv w)), c; repeat split.
  - intros [= <-]. unfold nm_keep_alive_set_dbus_client_watch.
    apply notify_alive_on_record.
    pose proof (cleanup_dbus_watch_on_record w A O) as O'.
    destruct client_address; [|exact O'].
    apply dbus_client_watch_register_on_record, O'.
  - intros [= <-]. unfold nm_settings_connection_set_flags.
    destruct (_ =? _); [exact O|].
    case_bool_decide; [apply notify_alive_on_record|]; exact O.
  - unfold get_name_owner_cb, nm_streq. destruct res as [owner|[|]].
    + destruct (dbus_client (priv w)) eqn:E; [|discriminate].
      destruct (String.eqb owner s); intros [= <-]; [exact O|].
      apply notify_alive_on_record, cleanup_dbus_watch_on_record; assumption.
    + intros [= <-]. exact O.
    + intros [= <-]. apply notify_alive_on_record, cleanup_dbus_watch_on_record; assumption.
  - intros [= <-]. destruct parameters as [[name old_owner] new_owner]. simpl.
    destruct (negb _); [exact O|].
    apply notify_alive_on_record, cleanup_dbus_watch_on_record; assumption.
Qed.

Lemma step_resources (e : event) (w w' : World) :
  watch_resources w -> step e w = Some w' -> watch_resources w'.
Proof.
  intros R. destruct e; simpl.
  - intros [= <-]. unfold nm_keep_alive_sink.
    destruct (floating (priv w)); [|exact R].
    apply notify_alive_resources. exact R.
  - intros [= <-]. unfold nm_keep_alive_set_forced.
    destruct (negb _); [|exact R].
    apply notify_alive_resources. exact R.
  - intros [= <-].
    unfold nm_keep_alive_set_settings_connection_watch_visible,
      _set_settings_connection_watch_visible.
    case_bool_decide; [exact R|].
    change (truth TRUE) with true; cbv iota.
    apply notify_alive_resources.
    eapply watch_resources_same; [|exact R].
    destruct (connection (priv w)), c; repeat split.
  - intros [= <-]. unfold nm_keep_alive_set_dbus_client_watch.
    apply notify_alive_resources.
    destruct (cleanup_dbus_watch_resources w R) as [E R'].
    destruct client_address; [|exact R'].
    apply dbus_client_watch_register_resources; assumption.
  - intros [= <-]. unfold nm_settings_connection_set_flags.
    destruct (_ =? _); [exact R|].
    case_bool_decide; [apply notify_alive_resources|]; exact R.
  - unfold get_name_owner_cb, nm_streq. destruct res as [owner|[|]].
    + destruct (dbus_client (priv w)) eqn:E; [|discriminate].
      destruct (String.eqb owner s); intros [= <-]; [exact R|].
      apply notify_alive_resources, cleanup_dbus_watch_resources, R.
    + intros [= <-]. exact R.
    + intros [= <-]. apply notify_alive_resources, cleanup_dbus_watch_resources, R.
  - intros [= <-]. destruct parameters as [[name old_owner] new_owner]. simpl.
    destruct (negb _); [exact R|].
    apply notify_alive_resources, cleanup_dbus_watch_resources, R.
Qed.

Lemma step_accounted (e : event) (w w' : World) :
  watch_resources w -> requests_accounted w -> step e w = Some w' ->
  requests_accounted w'.
Proof.
  intros R A. destruct e; simpl.
  - intros [= <-]. unfold nm_keep_alive_sink.
    destruct (floating (priv w)); [|exact A].
    apply notify_alive_accounted. exact A.
  - intros [= <-]. unfold nm_keep_alive_set_forced.
    destruct (negb _); [|exact A].
    apply notify_alive_accounted. exact A.
  - intros [= <-].
    unfold nm_keep_alive_set_settings_connection_watch_visible,
      _set_settings_connection_watch_visible.
    case_bool_decide; [exact A|].
    change (truth TRUE) with true; cbv iota.
    apply notify_alive_accounted.
    eapply requests_accounted_same; [|exact A].
    destruct (connection (priv w)), c; repeat split.
  - intros [= <-]. unfold nm_keep_alive_set_dbus_client_watch.
    apply notify_alive_accounted.
    pose proof (cleanup_dbus_watch_accounted w A) as A'.
    destruct client_address; [|exact A'].
    apply dbus_client_watch_register_accounted; [|exact A'].
    destruct (cleanup_dbus_watch_resources w R) as [E R'].
    unfold watch_resources in R'. rewrite E in R'. apply R'.
  - intros [= <-]. unfold nm_settings_connection_set_flags.
    destruct (_ =? _); [exact A|].
    case_bool_decide; [apply notify_alive_accounted|]; exact A.
  - unfold get_name_owner_cb, nm_streq. destruct res as [owner|[|]].
    + destruct (dbus_client (priv w)) eqn:E; [|discriminate].
      destruct (String.eqb owner s); intros [= <-]; [exact A|].
      apply notify_alive_accounted, cleanup_dbus_watch_accounted, A.
    + intros [= <-]. exact A.
    + intros [= <-]. apply notify_alive_accounted, cleanup_dbus_watch_accounted, A.
  - intros [= <-]. destruct parameters as [[name old_owner] new_owner]. simpl.
    destruct (negb _); [exact A|].
    apply notify_alive_accounted, cleanup_dbus_watch_accounted, A.
Qed.

Lemma unconnected_flags_visibility (c : positive) (flags : Z) (w : World) :
  handler_connected w -> c ∉ flags_changed_handlers w ->
  visibility (settings_connection_flags_set c flags w) = visibility w.
Proof.
  unfold handler_connected. intros Hh Hc.
  unfold visibility, nm_settings_connection_get_flags; simpl.
  destruct (connection (priv w)) as [c'|] eqn:E; [|reflexivity].
  assert (c <> c') as Hne.
  { intros ->. apply Hc. rewrite Hh. simpl. apply list_elem_of_here. }
  rewrite lookup_insert_ne by exact Hne. reflexivity.
Qed.

Lemma step_lazily_confirmed (e : event) (w w' : World) :
  handler_connected w -> lazily_confirmed w -> step e w = Some w' ->
  lazily_confirmed w'.
Proof.
  intros Hh L. destruct e; simpl.
  - intros [= <-]. unfold nm_keep_alive_sink.
    destruct (floating (priv w)); [|exact L].
    apply notify_alive_lazily_confirmed.
  - intros [= <-]. unfold nm_keep_alive_set_forced.
    destruct (negb _); [|exact L].
    apply notify_alive_lazily_confirmed.
  - intros [= <-].
    unfold nm_keep_alive_set_settings_connection_watch_visible,
      _set_settings_connection_watch_visible.
    case_bool_decide; [exact L|].
    change (truth TRUE) with true; cbv iota.
    apply notify_alive_lazily_confirmed.
  - intros [= <-]. apply notify_alive_lazily_confirmed.
  - intros [= <-]. unfold nm_settings_connection_set_flags.
    destruct (_ =? _); [exact L|].
    case_bool_decide as Hc; [apply notify_alive_lazily_confirmed|].
    simpl in Hc. unfold lazily_confirmed.
    rewrite (unconnected_flags_visibility c flags w Hh Hc). exact L.
  - unfold get_name_owner_cb, nm_streq. destruct res as [owner|[|]].
    + destruct (dbus_client (priv w)) eqn:E; [|discriminate].
      destruct (String.eqb owner s); intros [= <-]; [exact L|].
      apply notify_alive_lazily_confirmed.
    + intros [= <-]. exact L.
    + intros [= <-]. apply notify_alive_lazily_confirmed.
  - intros [= <-]. destruct parameters as [[name old_owner] new_owner]. simpl.
    destruct (negb _); [exact L|].
    apply notify_alive_lazily_confirmed.
Qed.

Lemma reachable_coherent (w : World) :
  reachable w ->
  handler_connected w /\ lazily_confirmed w /\ watch_resources w /\
  requests_accounted w /\ confirmation_on_record w.
Proof.
  induction 1 as [f s w Hn|e w w' _ (Hh & L & R & A & O) St].
  - rewrite nm_keep_alive_new_result in Hn.
    destruct (truth f); [|discriminate]. injection Hn as <-.
    split; [reflexivity|]. split; [intros _ Hc; contradiction|].
    split; [repeat split|]. split.
    + split; [apply NoDup_nil_2|].
      split; [discriminate|]. intros call Hin. apply elem_of_nil in Hin. contradiction.
    + split; [|discriminate]. intros k Hin. apply elem_of_empty in Hin. contradiction.
  - split; [exact (step_handler_connected e w w' Hh St)|].
    split; [exact (step_lazily_confirmed e w w' Hh L St)|].
    split; [exact (step_resources e w w' R St)|].
    split; [exact (step_accounted e w w' R A St)|].
    exact (step_on_record e w w' A O St).
Qed.

(** ** Further results *)

(** X1. In every state a tracker can reach in which the watched client is
    the only thing that keeps it alive, the confirmation of that client has
    been asked for: the confirmed flag is set, and the request for the
    client, on the bus connection of the watch, is on record with the
    pending cancellable, which was not cancelled. *)
Theorem sole_client_is_being_confirmed (w : World) (a : string) :
  reachable w ->
  floating (priv w) = false -> forced (priv w) = false -> visibility w = false ->
  dbus_client (priv w) = Some a ->
  nm_keep_alive_is_alive w = true /\
  dbus_client_confirmed (priv w) = true /\
  exists k : nat,
    dbus_client_confirm_cancellable (priv w) = Some k /\
    (k ∉ cancelled w) /\
    mkCall (dbus_connection (priv w)) a k ∈ calls w.
Proof.
  intros Rw Hfl Hfo Hv Hc.
  destruct (reachable_coherent w Rw) as (_ & L & _ & _ & _ & O).
  destruct (reachable_settled w Rw) as [S _].
  assert (dbus_client_confirmed (priv w) = true) as C.
  { destruct (dbus_client_confirmed (priv w)) eqn:C; [reflexivity|].
    unfold lazily_confirmed in L. rewrite C, Hc, Hfl, Hfo, Hv in L.
    exfalso. assert (false = true) by (apply L; [reflexivity|discriminate]).
    discriminate. }
  split; [|split; [exact C|exact (O a Hc C)]].
  unfold nm_keep_alive_is_alive. rewrite S.
  unfold derived, derive, watch_present. rewrite Hfl, Hfo, Hv, Hc. reflexivity.
Qed.

(** X2. In every state a tracker can reach, the bus resources follow the
    watched client: with no client there is no bus connection held, no
    pending confirmation and no subscription left; with a client the bus
    connection is held and the only subscription is the one stored in the
    tracker, made on that connection for that client. *)
Theorem subscriptions_follow_watch (w : World) :
  reachable w ->
  match dbus_client (priv w) with
  | None =>
      dbus_connection (priv w) = None /\
      dbus_client_confirm_cancellable (priv w) = None /\
      subscriptions w = ∅
  | Some a =>
      exists c : positive,
        dbus_connection (priv w) = Some c /\
        subscriptions w = {[ (c, subscription_id (priv w)) := a ]}
  end.
Proof.
  intros Rw. destruct (reachable_coherent w Rw) as (_ & _ & R & _). exact R.
Qed.

(** X3. In every state a tracker can reach, the confirmation requests have
    pairwise different cancellables, and a request that was not cancelled
    is the pending one, sent for the client watched now on the bus
    connection held now. So at most one request is not cancelled, and a
    reply to it finds a client to compare with: the callback does nothing
    if the owner is that client and tears the watch down otherwise. *)
Theorem uncancelled_request_is_current (w : World) :
  reachable w ->
  NoDup (call_cancellable <$> calls w) /\
  (forall call : GetNameOwnerCall,
      call ∈ calls w -> call_cancellable call ∉ cancelled w ->
      call = mkCall (dbus_connection (priv w)) (call_name call) (call_cancellable call) /\
      dbus_client_confirm_cancellable (priv w) = Some (call_cancellable call) /\
      dbus_client (priv w) = Some (call_name call) /\
      forall owner : string,
        get_name_owner_cb (Reply owner) w
        = if String.eqb owner (call_name call) then Some w
          else Some (_notify_alive (cleanup_dbus_watch w))) /\
  (forall call1 call2 : GetNameOwnerCall,
      call1 ∈ calls w -> call2 ∈ calls w ->
      call_cancellable call1 ∉ cancelled w -> call_cancellable call2 ∉ cancelled w ->
      call1 = call2).
Proof.
  intros Rw. destruct (reachable_coherent w Rw) as (_ & _ & _ & (Hnd & _ & Hc) & _).
  assert (forall call : GetNameOwnerCall,
      call ∈ calls w -> call_cancellable call ∉ cancelled w ->
      call = mkCall (dbus_connection (priv w)) (call_name call) (call_cancellable call) /\
      dbus_client_confirm_cancellable (priv w) = Some (call_cancellable call) /\
      dbus_client (priv w) = Some (call_name call)) as Cur.
  { intros call Hin Hx. destruct (Hc call Hin) as [_ [Hx'|(Hk & Hcl & Hd)]];
      [contradiction|].
    split; [|split; assumption]. rewrite Hd. destruct call; reflexivity. }
  split; [exact Hnd|]. split.
  - intros call Hin Hx. destruct (Cur call Hin Hx) as (E & Hk & Hcl).
    split; [exact E|]. split; [exact Hk|]. split; [exact Hcl|].
    intros owner. unfold get_name_owner_cb, nm_streq. rewrite Hcl. reflexivity.
  - intros call1 call2 Hin1 Hin2 Hx1 Hx2.
    destruct (Cur call1 Hin1 Hx1) as (E1 & Hk1 & Hcl1).
    destruct (Cur call2 Hin2 Hx2) as (E2 & Hk2 & Hcl2).
    rewrite E1, E2. congruence.
Qed.

(** X4. Disposing never notifies and never changes the cached value, and a
    second dispose changes nothing. From a state a tracker can reach it
    lets go of everything: no visibility source and no handler on one, no
    client, no bus connection, no pending confirmation, no subscription,
    and every confirmation request that was sent is cancelled. *)
Theorem dispose_releases_silently :
  (forall w : World,
      notified (dispose w) = notified w /\
      alive (priv (dispose w)) = alive (priv w) /\
      dispose (dispose w) = dispose w) /\
  (forall w : World,
      reachable w ->
      connection (priv (dispose w)) = None /\
      flags_changed_handlers (dispose w) = [] /\
      dbus_client (priv (dispose w)) = None /\
      dbus_connection (priv (dispose w)) = None /\
      dbus_client_confirm_cancellable (priv (dispose w)) = None /\
      subscriptions (dispose w) = ∅ /\
      forall call : GetNameOwnerCall,
        call ∈ calls (dispose w) -> call_cancellable call ∈ cancelled (dispose w)).
Proof.
  assert (forall w : World,
             connection (priv (_set_settings_connection_watch_visible None FALSE w))
             = None) as Hnone.
  { intros w. unfold _set_settings_connection_watch_visible.
    case_bool_decide as E; [exact E|].
    change (truth FALSE) with false; cbv iota.
    destruct (connection (priv w)); [reflexivity|contradiction]. }
  split.
  - intros w. unfold dispose.
    set (w1 := _set_settings_connection_watch_visible None FALSE w).
    pose proof (cleanup_dbus_watch_frame w1)
      as (Hc & _ & _ & Ha & _ & _ & _ & _ & _ & _ & Hn).
    assert (alive (priv w1) = alive (priv w) /\ notified w1 = notified w) as [Ha1 Hn1].
    { subst w1. unfold _set_settings_connection_watch_visible.
      case_bool_decide; [split; reflexivity|].
      change (truth FALSE) with false; cbv iota.
      destruct (connection (priv w)); split; reflexivity. }
    split; [congruence|]. split; [congruence|].
    assert (_set_settings_connection_watch_visible None FALSE (cleanup_dbus_watch w1)
            = cleanup_dbus_watch w1) as ->.
    { unfold _set_settings_connection_watch_visible at 1.
      rewrite Hc. subst w1. rewrite Hnone.
      rewrite bool_decide_eq_true_2; reflexivity. }
    apply cleanup_dbus_watch_idempotent.
  - intros w Rw.
    destruct (reachable_coherent w Rw) as (Hh & _ & R & A & _).
    unfold dispose.
    set (w1 := _set_settings_connection_watch_visible None FALSE w).
    assert (same_watch w w1) as Sw.
    { subst w1. unfold _set_settings_connection_watch_visible.
      case_bool_decide; [apply same_watch_refl|].
      change (truth FALSE) with false; cbv iota.
      destruct (connection (priv w)); repeat split. }
    assert (flags_changed_handlers w1 = []) as Hh1.
    { subst w1. unfold _set_settings_connection_watch_visible.
      unfold handler_connected in Hh.
      case_bool_decide as E; [rewrite Hh, E; reflexivity|].
      change (truth FALSE) with false; cbv iota.
      destruct (connection (priv w)) as [old|]; [|contradiction].
      simpl. rewrite Hh. simpl. rewrite Pos.eqb_refl. reflexivity. }
    pose proof (watch_resources_same w w1 Sw R) as R1.
    pose proof (requests_accounted_same w w1 Sw A) as A1.
    destruct (cleanup_dbus_watch_resources w1 R1) as [E R2].
    pose proof (cleanup_dbus_watch_accounted w1 A1) as (_ & _ & Hcalls).
    pose proof (cleanup_dbus_watch_frame w1) as (Hc & _ & _ & _ & _ & _ & Hhh & _).
    unfold watch_resources in R2. rewrite E in R2. destruct R2 as (Hd & Hk & Hs).
    split; [rewrite Hc; apply Hnone|]. split; [congruence|].
    split; [exact E|]. split; [exact Hd|]. split; [exact Hk|]. split; [exact Hs|].
    intros call Hin. destruct (Hcalls call Hin) as [_ [Hx|(Hk' & _)]]; [exact Hx|].
    congruence.
Qed.

(** X5. Any non-zero argument forces like [TRUE]. Forcing never sends a
    confirmation request, leaves the floating flag, the sources and the
    watch alone, and a tracker whose cache is settled is alive after it. *)
Theorem forcing_keeps_alive (f : Z) (w : World) :
  f <> 0 ->
  nm_keep_alive_set_forced f w = nm_keep_alive_set_forced TRUE w /\
  forced (priv (nm_keep_alive_set_forced f w)) = true /\
  calls (nm_keep_alive_set_forced f w) = calls w /\
  dbus_client_confirmed (priv (nm_keep_alive_set_forced f w))
  = dbus_client_confirmed (priv w) /\
  (settled w -> nm_keep_alive_is_alive (nm_keep_alive_set_forced f w) = true).
Proof.
  intros Hf.
  assert (truth f = true) as T
      by (unfold truth; destruct (Z.eqb_spec f 0); [contradiction|reflexivity]).
  unfold nm_keep_alive_set_forced. rewrite T. change (truth TRUE) with true.
  split; [reflexivity|].
  destruct (forced (priv w)) eqn:F; simpl.
  - split; [exact F|]. split; [reflexivity|]. split; [reflexivity|].
    unfold nm_keep_alive_is_alive, settled, derived, derive. intros ->.
    rewrite F. destruct (floating (priv w)); reflexivity.
  - rewrite notify_alive_unfold. cbv zeta.
    assert (derived (with_priv (set_forced true) w) = true) as D
        by (unfold derived, derive; simpl; destruct (floating (priv w)); reflexivity).
    rewrite D. simpl. rewrite Bool.orb_true_r. simpl.
    destruct (Bool.eqb (alive (priv w)) true) eqn:Q; simpl.
    + apply Bool.eqb_prop in Q. repeat split. intros _. exact Q.
    + repeat split.
Qed.

(** X6. Forcing a tracker that can be reached and is not forced, and then
    taking the force away, gives back the state it was in: nothing but the
    notifications differs, and these are two, true then false, if it was
    not alive, and none if it was. *)
Theorem force_then_unforce_restores (f : Z) (w : World) :
  reachable w -> forced (priv w) = false -> f <> 0 ->
  nm_keep_alive_set_forced FALSE (nm_keep_alive_set_forced f w)
  = mkWorld (priv w) (settings w) (flags_changed_handlers w) (subscriptions w)
            (next_subscription_id w) (calls w) (cancelled w) (next_cancellable w)
            (if alive (priv w) then notified w else false :: true :: notified w).
Proof.
  intros Rw F Hf.
  destruct (reachable_coherent w Rw) as (_ & L & _).
  destruct (reachable_settled w Rw) as [S _].
  assert (truth f = true) as T
      by (unfold truth; destruct (Z.eqb_spec f 0); [contradiction|reflexivity]).
  unfold settled, derived, visibility, nm_settings_connection_get_flags in S.
  unfold lazily_confirmed, visibility, nm_settings_connection_get_flags in L.
  rewrite F in S, L.
  unfold nm_keep_alive_set_forced at 2. rewrite F, T. simpl.
  rewrite notify_alive_unfold. cbv zeta.
  assert (derived (with_priv (set_forced true) w) = true) as D
      by (unfold derived, derive; simpl; destruct (floating (priv w)); reflexivity).
  rewrite D. simpl. rewrite Bool.orb_true_r. simpl.
  unfold nm_keep_alive_set_forced. change (truth FALSE) with false.
  destruct (alive (priv w)) eqn:A; simpl.
  - rewrite notify_alive_noop.
    + destruct_world w; simpl in *; subst; reflexivity.
    + unfold settled, derived, visibility, nm_settings_connection_get_flags. simpl.
      rewrite A. exact S.
    + unfold lazily_confirmed, visibility, nm_settings_connection_get_flags. simpl.
      exact L.
  - unfold derive, watch_present in S.
    destruct (floating (priv w)) eqn:Fl; [discriminate|].
    destruct (match connection (priv w) with Some _ => _ | None => _ end) eqn:V;
      [discriminate|].
    destruct (dbus_client (priv w)) eqn:E; [discriminate|].
    rewrite notify_alive_unfold. cbv zeta.
    unfold derived, derive, visibility, nm_settings_connection_get_flags,
      watch_present, _is_alive_dbus_client.
    simpl. rewrite Fl, V, E. simpl.
    destruct_world w; simpl in *; subst; reflexivity.
Qed.

Lemma derive_orb (a b c d : bool) : derive a b c d = a || b || c || d.
Proof. destruct a, b, c, d; reflexivity. Qed.

Lemma teardown_frame (w : World) :
  floating (priv (_notify_alive (cleanup_dbus_watch w))) = floating (priv w) /\
  forced (priv (_notify_alive (cleanup_dbus_watch w))) = forced (priv w) /\
  connection (priv (_notify_alive (cleanup_dbus_watch w))) = connection (priv w).
Proof.
  pose proof (notify_alive_frame (cleanup_dbus_watch w))
    as (H1 & _ & _ & _ & H5 & H6 & _).
  pose proof (cleanup_dbus_watch_frame w) as (G1 & G2 & G3 & _).
  repeat split; congruence.
Qed.

(** X7. Each flag and source of the tracker changes only through its own
    call: an event leaves the floating flag as it is unless it is a sink,
    which clears it; the forced flag unless it sets it; the visibility
    source unless it replaces it. An event that neither arms nor tears
    down the client watch leaves the client, the bus connection, the
    subscriptions and the cancelled requests as they are. *)
Theorem event_frame (e : event) (w w' : World) :
  step e w = Some w' ->
  floating (priv w') = match e with Sink => false | _ => floating (priv w) end /\
  forced (priv w') = match e with SetForced f => truth f | _ => forced (priv w) end /\
  connection (priv w')
  = match e with SetSettingsConnection c => c | _ => connection (priv w) end /\
  (rearms_or_tears_down e w = false ->
   dbus_client (priv w') = dbus_client (priv w) /\
   dbus_connection (priv w') = dbus_connection (priv w) /\
   subscription_id (priv w') = subscription_id (priv w) /\
   subscriptions w' = subscriptions w /\
   cancelled w' = cancelled w).
Proof.
  destruct e; simpl.
  - intros [= <-]. unfold nm_keep_alive_sink.
    destruct (floating (priv w)) eqn:F; [|repeat split; exact F].
    pose proof (notify_alive_frame (with_priv (set_floating false) w))
      as (H1 & H2 & H3 & H4 & H5 & H6 & _ & _ & H9 & _ & H11).
    repeat split; assumption.
  - intros [= <-]. unfold nm_keep_alive_set_forced.
    destruct (Bool.eqb (forced (priv w)) (truth forced')) eqn:Q; simpl.
    + apply Bool.eqb_prop in Q. repeat split. exact Q.
    + pose proof (notify_alive_frame (with_priv (set_forced (truth forced')) w))
        as (H1 & H2 & H3 & H4 & H5 & H6 & _ & _ & H9 & _ & H11).
      repeat split; assumption.
  - intros [= <-].
    unfold nm_keep_alive_set_settings_connection_watch_visible,
      _set_settings_connection_watch_visible.
    case_bool_decide as Q; [repeat split; exact Q|].
    change (truth TRUE) with true; cbv iota.
    match goal with |- context [_notify_alive ?x] =>
      pose proof (notify_alive_frame x)
        as (H1 & H2 & H3 & H4 & H5 & H6 & _ & _ & H9 & _ & H11) end.
    rewrite H1, H2, H3, H4, H5, H6, H9, H11.
    destruct (connection (priv w)), c; try congruence; repeat split.
  - intros [= <-]. unfold nm_keep_alive_set_dbus_client_watch.
    match goal with |- context [_notify_alive ?x] =>
      pose proof (notify_alive_frame x) as (H1 & _ & _ & _ & H5 & H6 & _) end.
    pose proof (cleanup_dbus_watch_frame w) as (G1 & G2 & G3 & _).
    rewrite H1, H5, H6.
    destruct client_address; simpl; (split; [|split; [|split]]);
      solve [assumption|discriminate].
  - intros [= <-]. unfold nm_settings_connection_set_flags.
    destruct (_ =? _); [repeat split|].
    case_bool_decide; [|repeat split].
    pose proof (notify_alive_frame (settings_connection_flags_set c flags w))
      as (H1 & H2 & H3 & H4 & H5 & H6 & _ & _ & H9 & _ & H11).
    repeat split; assumption.
  - unfold get_name_owner_cb, nm_streq. destruct res as [owner|[|]]; simpl.
    + destruct (dbus_client (priv w)) as [client|] eqn:E; [|discriminate].
      destruct (String.eqb_spec owner client) as [->|Hne]; intros [= <-].
      * repeat split. exact E.
      * destruct (teardown_frame w) as (T1 & T2 & T3).
        split; [exact T1|]. split; [exact T2|]. split; [exact T3|].
        intros Q. apply negb_false_iff, bool_decide_eq_true in Q. congruence.
    + intros [= <-]. repeat split.
    + intros [= <-]. destruct (teardown_frame w) as (T1 & T2 & T3).
      split; [exact T1|]. split; [exact T2|]. split; [exact T3|]. discriminate.
  - intros [= <-]. destruct parameters as [[name old_owner] new_owner]. simpl.
    destruct (String.eqb new_owner "") eqn:Q; simpl; [|repeat split].
    destruct (teardown_frame w) as (T1 & T2 & T3).
    split; [exact T1|]. split; [exact T2|]. split; [exact T3|]. discriminate.
Qed.

Lemma step_keeps_sunk (e : event) (w w' : World) :
  step e w = Some w' -> floating (priv w) = false -> floating (priv w') = false.
Proof.
  destruct e; simpl.
  - intros [= <-] F. unfold nm_keep_alive_sink. rewrite F. exact F.
  - intros [= <-] F. unfold nm_keep_alive_set_forced.
    destruct (negb _); [|exact F].
    pose proof (notify_alive_frame (with_priv (set_forced (truth forced')) w))
      as (_ & _ & _ & _ & H5 & _). rewrite H5. exact F.
  - intros [= <-] F.
    unfold nm_keep_alive_set_settings_connection_watch_visible,
      _set_settings_connection_watch_visible.
    case_bool_decide as Q; [exact F|].
    change (truth TRUE) with true; cbv iota.
    match goal with |- context [_notify_alive ?x] =>
      pose proof (notify_alive_frame x) as (_ & _ & _ & _ & H5 & _) end.
    rewrite H5. destruct (connection (priv w)), c; exact F.
  - intros [= <-] F. unfold nm_keep_alive_set_dbus_client_watch.
    match goal with |- context [_notify_alive ?x] =>
      pose proof (notify_alive_frame x) as (_ & _ & _ & _ & H5 & _) end.
    pose proof (cleanup_dbus_watch_frame w) as (_ & G2 & _).
    rewrite H5. destruct client_address; simpl; congruence.
  - intros [= <-] F. unfold nm_settings_connection_set_flags.
    destruct (_ =? _); [exact F|].
    case_bool_decide; [|exact F].
    pose proof (notify_alive_frame (settings_connection_flags_set c flags w))
      as (_ & _ & _ & _ & H5 & _).
    unfold connection_flags_changed. rewrite H5. exact F.
  - unfold get_name_owner_cb, nm_streq. destruct res as [owner|[|]]; simpl.
    + destruct (dbus_client (priv w)) as [client|]; [|discriminate].
      destruct (String.eqb owner client); intros [= <-] F; [exact F|].
      destruct (teardown_frame w) as (T1 & _). congruence.
    + intros [= <-] F. exact F.
    + intros [= <-] F. destruct (teardown_frame w) as (T1 & _). congruence.
  - intros [= <-] F. destruct parameters as [[name old_owner] new_owner]. simpl.
    destruct (negb _); [exact F|].
    destruct (teardown_frame w) as (T1 & _). congruence.
Qed.

(** X8. A tracker that was sunk never floats again, whatever events
    follow. *)
Theorem sunk_for_good (es : list event) (w w' : World) :
  run es (nm_keep_alive_sink w) = Some w' -> floating (priv w') = false.
Proof.
  assert (floating (priv (nm_keep_alive_sink w)) = false) as F.
  { unfold nm_keep_alive_sink. destruct (floating (priv w)) eqn:F; [|exact F].
    pose proof (notify_alive_frame (with_priv (set_floating false) w))
      as (_ & _ & _ & _ & H5 & _). rewrite H5. reflexivity. }
  revert F. generalize (nm_keep_alive_sink w). clear w.
  induction es as [|e es IH]; intros w F; simpl.
  - intros [= <-]. exact F.
  - destruct (step e w) as [w1|] eqn:St; [|discriminate].
    apply IH. exact (step_keeps_sunk e w w1 St F).
Qed.

(** X9. In every state a tracker can reach, the notifications emitted so far
    alternate, the newest carrying the cached value and the oldest false;
    the tracker is alive exactly if their number is even. *)
Theorem notifications_alternate (w : World) :
  reachable w ->
  nm_keep_alive_is_alive w = Nat.even (length (notified w)) /\
  notified w = alternating (length (notified w)) (alive (priv w)).
Proof. apply reachable_alternating. Qed.

(** X10. Running the notification step twice is the same as running it
    once; and on a tracker in a state it can reach, the handler for changed
    flags changes nothing when it runs without a change to react to. *)
Theorem recomputation_is_idempotent :
  (forall w : World, _notify_alive (_notify_alive w) = _notify_alive w) /\
  (forall (c c' : positive) (w : World),
      connection_flags_changed c' (connection_flags_changed c w)
      = connection_flags_changed c w) /\
  (forall (c : positive) (w : World),
      reachable w -> connection_flags_changed c w = w).
Proof.
  split; [exact notify_alive_idem|]. split.
  - intros c c' w. apply notify_alive_idem.
  - intros c w Rw. unfold connection_flags_changed.
    destruct (reachable_coherent w Rw) as (_ & L & _).
    destruct (reachable_settled w Rw) as [S _].
    apply notify_alive_noop; assumption.
Qed.

(** X11. Whatever the state, an event emits one notification if it changes
    the cached value, carrying the new value, and none if it does not. *)
Theorem one_notification_per_change (e : event) (w w' : World) :
  step e w = Some w' ->
  notified w' = if Bool.eqb (alive (priv w')) (alive (priv w)) then notified w
                else alive (priv w') :: notified w.
Proof. apply step_edge. Qed.

Lemma teardown_derived (w : World) :
  derived (_notify_alive (cleanup_dbus_watch w))
  = floating (priv w) || forced (priv w) || visibility w.
Proof.
  rewrite notify_alive_derived.
  pose proof (cleanup_dbus_watch_frame w) as (Hc & Hfl & Hfo & _ & _ & Hs & _).
  unfold derived, visibility, nm_settings_connection_get_flags, watch_present.
  rewrite Hc, Hfl, Hfo, Hs, cleanup_dbus_watch_client, derive_orb.
  apply Bool.orb_false_r.
Qed.

(** X12. When the watched client is lost (its name is given up, or its
    confirmation fails), a tracker whose cache was settled is alive
    afterwards exactly if it is floating, forced or visibly connected; the
    one notification, false, is emitted exactly if it was alive and none of
    these holds. *)
Theorem client_loss_outcome (name old_owner : string) (w : World) :
  settled w ->
  get_name_owner_cb (Failed false) w
  = Some (name_owner_changed_cb (name, old_owner, ""%string) w) /\
  dbus_client (priv (name_owner_changed_cb (name, old_owner, ""%string) w)) = None /\
  nm_keep_alive_is_alive (name_owner_changed_cb (name, old_owner, ""%string) w)
  = floating (priv w) || forced (priv w) || visibility w /\
  notified (name_owner_changed_cb (name, old_owner, ""%string) w)
  = if alive (priv w) && negb (floating (priv w) || forced (priv w) || visibility w)
    then false :: notified w else notified w.
Proof.
  intros S. change (name_owner_changed_cb (name, old_owner, ""%string) w)
    with (_notify_alive (cleanup_dbus_watch w)).
  split; [reflexivity|].
  destruct (teardown_recomputed w) as (Hc & Ha & Hn).
  split; [exact Hc|].
  unfold nm_keep_alive_is_alive. rewrite Hn, Ha, teardown_derived.
  split; [reflexivity|].
  unfold settled, derived in S. rewrite derive_orb in S. rewrite S.
  destruct (floating (priv w) || forced (priv w) || visibility w); simpl.
  - reflexivity.
  - destruct (watch_present w); reflexivity.
Qed.

(** X13. Sinking a floating tracker whose cache is settled clears the
    floating flag; afterwards the tracker is alive exactly if it is forced,
    visibly connected or watching a client, and the one notification,
    false, is emitted exactly if none of these holds. *)
Theorem sink_outcome (w : World) :
  floating (priv w) = true -> settled w ->
  floating (priv (nm_keep_alive_sink w)) = false /\
  nm_keep_alive_is_alive (nm_keep_alive_sink w)
  = forced (priv w) || visibility w || watch_present w /\
  notified (nm_keep_alive_sink w)
  = if forced (priv w) || visibility w || watch_present w then notified w
    else false :: notified w.
Proof.
  intros F S. unfold nm_keep_alive_sink. rewrite F.
  pose proof (notify_alive_frame (with_priv (set_floating false) w))
    as (_ & _ & _ & _ & H5 & _).
  split; [rewrite H5; reflexivity|].
  destruct (recomputed_after w (with_priv (set_floating false) w) eq_refl eq_refl)
    as [Ha Hn].
  assert (derived (_notify_alive (with_priv (set_floating false) w))
          = forced (priv w) || visibility w || watch_present w) as D.
  { rewrite notify_alive_derived. unfold derived. rewrite derive_orb. reflexivity. }
  unfold nm_keep_alive_is_alive. rewrite Hn, Ha, D. split; [reflexivity|].
  unfold settled, derived in S. rewrite derive_orb, F in S. simpl in S. rewrite S.
  destruct (forced (priv w) || visibility w || watch_present w); reflexivity.
Qed.

(** X14. When the handler for changed flags runs after the flags of the
    watched connection became [flags], the tracker is alive afterwards
    exactly if it is floating, forced, watching a client, or [flags] has
    the visible flag; one notification is emitted if that changes the
    cached value. *)
Theorem flags_change_outcome (c : positive) (flags : Z) (w : World) :
  connection (priv w) = Some c ->
  nm_keep_alive_is_alive
    (connection_flags_changed c (settings_connection_flags_set c flags w))
  = floating (priv w) || forced (priv w)
    || NM_FLAGS_HAS flags NM_SETTINGS_CONNECTION_INT_FLAGS_VISIBLE
    || watch_present w /\
  notified (connection_flags_changed c (settings_connection_flags_set c flags w))
  = if Bool.eqb
         (alive (priv (connection_flags_changed c
                         (settings_connection_flags_set c flags w))))
         (alive (priv w))
    then notified w
    else alive (priv (connection_flags_changed c
                        (settings_connection_flags_set c flags w)))
         :: notified w.
Proof.
  intros Hc. unfold connection_flags_changed.
  pose proof (recomputed_after w (settings_connection_flags_set c flags w)
                eq_refl eq_refl) as R.
  split; [|exact (recomputed_edge _ _ R)].
  destruct R as [Ha _]. unfold nm_keep_alive_is_alive. rewrite Ha, notify_alive_derived.
  unfold derived, visibility, nm_settings_connection_get_flags, watch_present. simpl.
  rewrite Hc, lookup_insert_eq, derive_orb. reflexivity.
Qed.

(** X15. Watching a client (or none) on a tracker in a state it can reach
    replaces the watch as a whole: every confirmation request sent before
    is cancelled, the old subscription is gone, and the tracker holds the
    new client with a subscription of its own under a fresh id, or nothing
    at all. Afterwards the tracker is alive exactly if it is floating,
    forced, visibly connected or was given a client. *)
Theorem watch_replaced_as_a_whole (c : positive) (a : option string) (w : World) :
  reachable w ->
  dbus_client (priv (nm_keep_alive_set_dbus_client_watch c a w)) = a /\
  dbus_connection (priv (nm_keep_alive_set_dbus_client_watch c a w))
  = match a with Some _ => Some c | None => None end /\
  subscriptions (nm_keep_alive_set_dbus_client_watch c a w)
  = match a with
    | Some name => {[ (c, next_subscription_id w) := name ]}
    | None => ∅
    end /\
  (forall call : GetNameOwnerCall,
      call ∈ calls w ->
      call_cancellable call ∈ cancelled (nm_keep_alive_set_dbus_client_watch c a w)) /\
  nm_keep_alive_is_alive (nm_keep_alive_set_dbus_client_watch c a w)
  = floating (priv w) || forced (priv w) || visibility w
    || match a with Some _ => true | None => false end.
Proof.
  intros Rw. destruct (reachable_coherent w Rw) as (_ & _ & R & A & _).
  destruct (cleanup_dbus_watch_resources w R) as [E R1].
  pose proof (cleanup_dbus_watch_accounted w A) as (_ & _ & Hcalls).
  pose proof (cleanup_dbus_watch_frame w)
    as (Hc & Hfl & Hfo & _ & _ & Hs & _ & Hcl & _ & Hid & _).
  unfold watch_resources in R1. rewrite E in R1. destruct R1 as (Hd & Hk & Hsub).
  assert (forall call : GetNameOwnerCall,
             call ∈ calls w -> call_cancellable call ∈ cancelled (cleanup_dbus_watch w))
    as Hx.
  { intros call Hin. rewrite <- Hcl in Hin.
    destruct (Hcalls call Hin) as [_ [Hx|(Hk' & _)]]; [exact Hx|congruence]. }
  destruct (set_dbus_client_watch_recomputed c a w) as [Ha _].
  unfold nm_keep_alive_is_alive. rewrite Ha. clear Ha.
  unfold nm_keep_alive_set_dbus_client_watch.
  match goal with |- context [_notify_alive ?x] =>
    pose proof (notify_alive_frame x)
      as (_ & H2 & H3 & _ & _ & _ & _ & _ & H9 & _ & H11);
    pose proof (notify_alive_derived x) as H12 end.
  rewrite H2, H3, H9, H11, H12.
  unfold derived, visibility, nm_settings_connection_get_flags, watch_present.
  rewrite derive_orb.
  destruct a as [name|]; simpl.
  - rewrite Hc, Hfl, Hfo, Hs, Hsub, Hid, insert_empty. repeat split. exact Hx.
  - rewrite Hc, Hfl, Hfo, Hs, E. repeat split; assumption.
Qed.

(** X16. Watching a visibility source (or none) on a tracker whose cache is
    settled leaves it watching just that source, with the handler for
    changed flags on that source and on no other; afterwards the tracker is
    alive exactly if it is floating, forced, watching a client, or the new
    source is visible. *)
Theorem visibility_source_outcome (c : option positive) (w : World) :
  settled w -> handler_connected w ->
  connection (priv (nm_keep_alive_set_settings_connection_watch_visible c w)) = c /\
  flags_changed_handlers (nm_keep_alive_set_settings_connection_watch_visible c w)
  = option_list c /\
  nm_keep_alive_is_alive (nm_keep_alive_set_settings_connection_watch_visible c w)
  = floating (priv w) || forced (priv w)
    || match c with
       | Some new => NM_FLAGS_HAS (nm_settings_connection_get_flags w new)
                                  NM_SETTINGS_CONNECTION_INT_FLAGS_VISIBLE
       | None => false
       end
    || watch_present w.
Proof.
  intros S Hh.
  pose proof (set_settings_connection_handler_connected c w Hh) as Hh'.
  destruct (set_settings_connection_recomputed c w S) as [Ha _].
  unfold nm_keep_alive_is_alive. rewrite Ha. clear Ha.
  unfold handler_connected in Hh'. rewrite Hh'. clear Hh'.
  unfold nm_keep_alive_set_settings_connection_watch_visible,
    _set_settings_connection_watch_visible.
  case_bool_decide as Q.
  - split; [exact Q|]. split; [rewrite Q; reflexivity|].
    unfold derived, visibility. rewrite derive_orb, Q. reflexivity.
  - change (truth TRUE) with true; cbv iota.
    match goal with |- context [_notify_alive ?x] =>
      pose proof (notify_alive_frame x) as (H1 & _);
      pose proof (notify_alive_derived x) as H2 end.
    rewrite H1, H2. clear H1 H2.
    unfold derived, visibility, nm_settings_connection_get_flags, watch_present.
    rewrite derive_orb.
    destruct (connection (priv w)), c; try congruence; repeat split.
Qed.

End MoreProperties.

(** ** The results on the scenarios *)

Section ScenarioFacts.

#[local] Existing Instance scenario_visible_flag.

Lemma created_world_is_new : nm_keep_alive_new TRUE ∅ = Some created_world.
Proof. reflexivity. Qed.

Lemma sunk_world_state :
  priv sunk_world = mkPriv None None None None 0%N false false false false /\
  notified sunk_world = [false] /\ calls sunk_world = [].
Proof. repeat split. Qed.

Lemma armed_world_state :
  priv armed_world
  = mkPriv None (Some 5%positive) (Some "client.X"%string) (Some 0%nat) 1%N
           false false true true /\
  notified armed_world = [true; false] /\
  calls armed_world = [mkCall (Some 5%positive) "client.X" 0].
Proof. repeat split. Qed.

Lemma stale_world_state :
  priv stale_world
  = mkPriv (Some 1%positive) None None None 0%N false false true false /\
  nm_settings_connection_get_flags stale_world 1%positive = 0 /\
  derived stale_world = false /\
  notified stale_world = [].
Proof. vm_compute. repeat split. Qed.

(** C4, as stated, fails: the tracker of [sunk_world] is neither floating
    nor forced nor visibly connected, and arming a watch on it sends the
    confirmation request within the arming call, although nobody asked
    whether the tracker is alive. *)
Lemma arming_sunk_tracker_requests_at_once :
  calls (nm_keep_alive_set_dbus_client_watch 5%positive (Some "client.X"%string) sunk_world)
  <> calls sunk_world.
Proof. vm_compute. discriminate. Qed.

(** C5, as stated, fails: in [stale_world] the watched connection 1 is no
    longer visible while the cache still says alive; passing connection 1
    again returns at the comparison of the pointers, so the cache keeps the
    stale value and no notification is emitted. *)
Lemma rewatching_same_source_skips_recomputation :
  ~ recomputed_and_notified stale_world
      (nm_keep_alive_set_settings_connection_watch_visible (Some 1%positive) stale_world).
Proof. intros [H _]. vm_compute in H. discriminate. Qed.

Lemma rewatching_same_source_differs_from_spec :
  notified (nm_keep_alive_set_settings_connection_watch_visible (Some 1%positive) stale_world)
  = [] /\
  notified (watchVisibilitySource_spec (Some 1%positive) stale_world) = [false].
Proof. vm_compute. split; reflexivity. Qed.

Lemma notification_iff_value_changes_witness :
  settled created_world /\ handler_connected created_world /\
  step Sink created_world = Some sunk_world /\
  notified sunk_world = [false].
Proof.
  split; [reflexivity|]. split; [reflexivity|]. split; [reflexivity|].
  exact (proj1 (proj2 notification_iff_value_changes)
           Sink created_world sunk_world eq_refl eq_refl eq_refl).
Defined.

Lemma created_floating_alive_and_cache_kept_witness :
  nm_keep_alive_new TRUE ∅ = Some created_world /\
  (floating (priv created_world) = true /\ alive (priv created_world) = true /\
   settled created_world /\ handler_connected created_world) /\
  (settled sunk_world /\ handler_connected sunk_world).
Proof.
  split; [reflexivity|]. split.
  - exact (proj1 created_floating_alive_and_cache_kept TRUE ∅ created_world eq_refl).
  - exact (proj1 (proj2 (proj2 created_floating_alive_and_cache_kept))
             Sink created_world sunk_world eq_refl eq_refl eq_refl).
Defined.

Lemma watch_visible_recomputes_unless_same_source_witness :
  (connection (priv created_world) <> Some 1%positive /\
   recomputed_and_notified created_world
     (nm_keep_alive_set_settings_connection_watch_visible (Some 1%positive) created_world)) /\
  (connection (priv stale_world) = Some 1%positive /\
   nm_keep_alive_set_settings_connection_watch_visible (Some 1%positive) stale_world
   = stale_world).
Proof.
  split.
  - assert (connection (priv created_world) <> Some 1%positive) as Hne
        by (simpl; discriminate).
    split; [exact Hne|].
    apply (proj1 (watch_visible_recomputes_unless_same_source
                    (Some 1%positive) created_world) Hne).
  - split; [reflexivity|].
    exact (proj2 (watch_visible_recomputes_unless_same_source
                    (Some 1%positive) stale_world) eq_refl).
Defined.

Lemma get_name_owner_cb_outcomes_witness :
  dbus_client (priv armed_world) = Some "client.X"%string /\
  get_name_owner_cb (Reply "client.X") armed_world = Some armed_world /\
  get_name_owner_cb (Reply "someone.else") armed_world
  = Some (_notify_alive (cleanup_dbus_watch armed_world)).
Proof.
  destruct (get_name_owner_cb_outcomes armed_world) as (_ & _ & Hother & Hsame & _).
  split; [reflexivity|]. split.
  - exact (Hsame "client.X"%string eq_refl).
  - apply (Hother "client.X"%string "someone.else"%string eq_refl). discriminate.
Defined.

Lemma at_most_one_confirmation_per_arming_witness :
  let w1 := nm_keep_alive_set_dbus_client_watch 5%positive (Some "client.X"%string)
              created_world in
  let w' := nm_keep_alive_set_forced 0 (nm_keep_alive_set_forced 1 (nm_keep_alive_sink w1)) in
  watch_run w1 [Sink; SetForced 1; SetForced 0] w' /\
  (calls w' = calls created_world \/
   calls w' = mkCall (Some 5%positive) "client.X" (next_cancellable created_world)
              :: calls created_world).
Proof.
  intros w1 w'.
  assert (watch_run w1 [Sink; SetForced 1; SetForced 0] w') as R.
  { eapply watch_run_cons; [reflexivity|reflexivity|].
    eapply watch_run_cons; [reflexivity|reflexivity|].
    eapply watch_run_cons; [reflexivity|reflexivity|].
    apply watch_run_nil. }
  split; [exact R|].
  exact (proj1 (at_most_one_confirmation_per_arming
                  5%positive "client.X"%string created_world w' _ R)).
Defined.

Lemma name_owner_changed_cb_outcomes_witness :
  dbus_client
    (priv (name_owner_changed_cb ("client.X", ":1.7", "")%string armed_world)) = None /\
  name_owner_changed_cb ("client.X", "", ":1.7")%string armed_world = armed_world.
Proof.
  split.
  - apply (proj1 (name_owner_changed_cb_outcomes
                    "client.X"%string ":1.7"%string ""%string armed_world) eq_refl).
  - apply (proj2 (name_owner_changed_cb_outcomes
                    "client.X"%string ""%string ":1.7"%string armed_world)).
    discriminate.
Defined.

Lemma cleanup_dbus_watch_tears_down_witness :
  dbus_client (priv armed_world) = Some "client.X"%string /\
  dbus_client (priv (cleanup_dbus_watch armed_world)) = None /\
  0%nat ∈ cancelled (cleanup_dbus_watch armed_world) /\
  subscriptions (cleanup_dbus_watch armed_world) !! (5%positive, 1%N) = None.
Proof.
  destruct (proj1 cleanup_dbus_watch_tears_down armed_world "client.X"%string eq_refl)
    as (Hcl & _ & Hk & Hs).
  split; [reflexivity|]. split; [exact Hcl|]. split.
  - exact (Hk 0%nat eq_refl).
  - exact (proj1 (Hs 5%positive eq_refl)).
Defined.

End ScenarioFacts.

(** ** The further results on the scenarios *)

Section ScenarioFactsMore.

#[local] Existing Instance scenario_visible_flag.

Lemma sunk_world_reachable : reachable sunk_world.
Proof.
  apply (reachable_step Sink created_world).
  - apply (reachable_new TRUE ∅). vm_compute. reflexivity.
  - vm_compute. reflexivity.
Qed.

Lemma armed_world_reachable : reachable armed_world.
Proof.
  apply (reachable_step (SetDbusClientWatch 5%positive (Some "client.X"%string))
           sunk_world).
  - exact sunk_world_reachable.
  - vm_compute. reflexivity.
Qed.

Lemma sole_client_is_being_confirmed_witness :
  reachable armed_world /\
  floating (priv armed_world) = false /\ forced (priv armed_world) = false /\
  visibility armed_world = false /\
  dbus_client (priv armed_world) = Some "client.X"%string /\
  nm_keep_alive_is_alive armed_world = true /\
  dbus_client_confirmed (priv armed_world) = true.
Proof.
  assert (floating (priv armed_world) = false) as H1 by (vm_compute; reflexivity).
  assert (forced (priv armed_world) = false) as H2 by (vm_compute; reflexivity).
  assert (visibility armed_world = false) as H3 by (vm_compute; reflexivity).
  assert (dbus_client (priv armed_world) = Some "client.X"%string) as H4
      by (vm_compute; reflexivity).
  destruct (sole_client_is_being_confirmed armed_world "client.X"%string
              armed_world_reachable H1 H2 H3 H4) as (Ha & Hc & _).
  repeat split; assumption || exact armed_world_reachable.
Defined.

Lemma subscriptions_follow_watch_witness :
  reachable armed_world /\
  match dbus_client (priv armed_world) with
  | None =>
      dbus_connection (priv armed_world) = None /\
      dbus_client_confirm_cancellable (priv armed_world) = None /\
      subscriptions armed_world = ∅
  | Some a =>
      exists c : positive,
        dbus_connection (priv armed_world) = Some c /\
        subscriptions armed_world = {[ (c, subscription_id (priv armed_world)) := a ]}
  end.
Proof.
  split; [exact armed_world_reachable|].
  exact (subscriptions_follow_watch armed_world armed_world_reachable).
Defined.

Lemma uncancelled_request_is_current_witness :
  reachable armed_world /\
  NoDup (call_cancellable <$> calls armed_world).
Proof.
  split; [exact armed_world_reachable|].
  exact (proj1 (uncancelled_request_is_current armed_world armed_world_reachable)).
Defined.

Lemma dispose_releases_silently_witness :
  reachable armed_world /\
  dbus_client (priv (dispose armed_world)) = None /\
  subscriptions (dispose armed_world) = ∅ /\
  notified (dispose armed_world) = notified armed_world.
Proof.
  destruct dispose_releases_silently as [Hany Hreach].
  destruct (Hreach armed_world armed_world_reachable)
    as (_ & _ & Hc & _ & _ & Hs & _).
  destruct (Hany armed_world) as (Hn & _).
  split; [exact armed_world_reachable|]. split; [exact Hc|].
  split; [exact Hs|exact Hn].
Defined.

Lemma forcing_keeps_alive_witness :
  2 <> 0 /\ settled sunk_world /\
  nm_keep_alive_set_forced 2 sunk_world = nm_keep_alive_set_forced TRUE sunk_world /\
  nm_keep_alive_is_alive (nm_keep_alive_set_forced 2 sunk_world) = true.
Proof.
  assert (2 <> 0) as Hne by lia.
  assert (settled sunk_world) as S by (vm_compute; reflexivity).
  destruct (forcing_keeps_alive 2 sunk_world Hne) as (Heq & _ & _ & _ & Ha).
  split; [exact Hne|]. split; [exact S|]. split; [exact Heq|exact (Ha S)].
Defined.

Lemma force_then_unforce_restores_witness :
  reachable sunk_world /\ forced (priv sunk_world) = false /\ TRUE <> 0 /\
  nm_keep_alive_set_forced FALSE (nm_keep_alive_set_forced TRUE sunk_world)
  = mkWorld (priv sunk_world) (settings sunk_world) (flags_changed_handlers sunk_world)
            (subscriptions sunk_world) (next_subscription_id sunk_world)
            (calls sunk_world) (cancelled sunk_world) (next_cancellable sunk_world)
            (if alive (priv sunk_world) then notified sunk_world
             else false :: true :: notified sunk_world).
Proof.
  assert (forced (priv sunk_world) = false) as F by (vm_compute; reflexivity).
  assert (TRUE <> 0) as Hne by (unfold TRUE; lia).
  split; [exact sunk_world_reachable|]. split; [exact F|]. split; [exact Hne|].
  exact (force_then_unforce_restores TRUE sunk_world sunk_world_reachable F Hne).
Defined.

Lemma event_frame_witness :
  step (SetForced TRUE) sunk_world = Some (nm_keep_alive_set_forced TRUE sunk_world) /\
  floating (priv (nm_keep_alive_set_forced TRUE sunk_world)) = floating (priv sunk_world) /\
  forced (priv (nm_keep_alive_set_forced TRUE sunk_world)) = truth TRUE.
Proof.
  assert (step (SetForced TRUE) sunk_world
          = Some (nm_keep_alive_set_forced TRUE sunk_world)) as St by reflexivity.
  destruct (event_frame (SetForced TRUE) sunk_world _ St) as (Hfl & Hfo & _).
  split; [exact St|]. split; [exact Hfl|exact Hfo].
Defined.

Lemma sunk_for_good_witness :
  run [SetForced TRUE; SetDbusClientWatch 5%positive (Some "client.X"%string)]
      (nm_keep_alive_sink created_world)
  = Some (nm_keep_alive_set_dbus_client_watch 5%positive (Some "client.X"%string)
            (nm_keep_alive_set_forced TRUE (nm_keep_alive_sink created_world))) /\
  floating (priv (nm_keep_alive_set_dbus_client_watch 5%positive (Some "client.X"%string)
                    (nm_keep_alive_set_forced TRUE (nm_keep_alive_sink created_world))))
  = false.
Proof.
  assert (run [SetForced TRUE; SetDbusClientWatch 5%positive (Some "client.X"%string)]
              (nm_keep_alive_sink created_world)
          = Some (nm_keep_alive_set_dbus_client_watch 5%positive (Some "client.X"%string)
                    (nm_keep_alive_set_forced TRUE (nm_keep_alive_sink created_world))))
    as R by reflexivity.
  split; [exact R|].
  exact (sunk_for_good _ created_world _ R).
Defined.

Lemma notifications_alternate_witness :
  reachable armed_world /\
  nm_keep_alive_is_alive armed_world = Nat.even (length (notified armed_world)) /\
  notified armed_world
  = alternating (length (notified armed_world)) (alive (priv armed_world)).
Proof.
  split; [exact armed_world_reachable|].
  exact (notifications_alternate armed_world armed_world_reachable).
Defined.

Lemma recomputation_is_idempotent_witness :
  reachable armed_world /\
  connection_flags_changed 1%positive armed_world = armed_world.
Proof.
  split; [exact armed_world_reachable|].
  exact (proj2 (proj2 recomputation_is_idempotent) 1%positive armed_world
           armed_world_reachable).
Defined.

Lemma one_notification_per_change_witness :
  step Sink created_world = Some sunk_world /\
  notified sunk_world
  = if Bool.eqb (alive (priv sunk_world)) (alive (priv created_world))
    then notified created_world
    else alive (priv sunk_world) :: notified created_world.
Proof.
  assert (step Sink created_world = Some sunk_world) as St by reflexivity.
  split; [exact St|].
  exact (one_notification_per_change Sink created_world sunk_world St).
Defined.

Lemma client_loss_outcome_witness :
  settled armed_world /\
  nm_keep_alive_is_alive
    (name_owner_changed_cb ("client.X", ":1.7", "")%string armed_world)
  = floating (priv armed_world) || forced (priv armed_world) || visibility armed_world.
Proof.
  assert (settled armed_world) as S by (vm_compute; reflexivity).
  split; [exact S|].
  exact (proj1 (proj2 (proj2
           (client_loss_outcome "client.X"%string ":1.7"%string armed_world S)))).
Defined.

Lemma sink_outcome_witness :
  floating (priv created_world) = true /\ settled created_world /\
  floating (priv (nm_keep_alive_sink created_world)) = false /\
  nm_keep_alive_is_alive (nm_keep_alive_sink created_world)
  = forced (priv created_world) || visibility created_world
    || watch_present created_world.
Proof.
  assert (floating (priv created_world) = true) as F by reflexivity.
  assert (settled created_world) as S by reflexivity.
  destruct (sink_outcome created_world F S) as (Hf & Ha & _).
  split; [exact F|]. split; [exact S|]. split; [exact Hf|exact Ha].
Defined.

Lemma flags_change_outcome_witness :
  connection (priv watching_world) = Some 1%positive /\
  nm_keep_alive_is_alive
    (connection_flags_changed 1%positive
       (settings_connection_flags_set 1%positive 0 watching_world))
  = floating (priv watching_world) || forced (priv watching_world)
    || NM_FLAGS_HAS 0 NM_SETTINGS_CONNECTION_INT_FLAGS_VISIBLE
    || watch_present watching_world.
Proof.
  assert (connection (priv watching_world) = Some 1%positive) as Hc
      by (vm_compute; reflexivity).
  split; [exact Hc|].
  exact (proj1 (flags_change_outcome 1%positive 0 watching_world Hc)).
Defined.

Lemma watch_replaced_as_a_whole_witness :
  reachable armed_world /\
  dbus_client (priv (nm_keep_alive_set_dbus_client_watch 6%positive
                       (Some "client.Y"%string) armed_world))
  = Some "client.Y"%string /\
  subscriptions (nm_keep_alive_set_dbus_client_watch 6%positive (Some "client.Y"%string)
                   armed_world)
  = {[ (6%positive, next_subscription_id armed_world) := "client.Y"%string ]}.
Proof.
  destruct (watch_replaced_as_a_whole 6%positive (Some "client.Y"%string) armed_world
              armed_world_reachable) as (Hc & _ & Hs & _).
  split; [exact armed_world_reachable|]. split; [exact Hc|exact Hs].
Defined.

Lemma visibility_source_outcome_witness :
  settled sunk_world /\ handler_connected sunk_world /\
  connection (priv (nm_keep_alive_set_settings_connection_watch_visible
                      (Some 1%positive) sunk_world)) = Some 1%positive /\
  flags_changed_handlers
    (nm_keep_alive_set_settings_connection_watch_visible (Some 1%positive) sunk_world)
  = option_list (Some 1%positive).
Proof.
  assert (settled sunk_world) as S by (vm_compute; reflexivity).
  assert (handler_connected sunk_world) as Hh by (vm_compute; reflexivity).
  destruct (visibility_source_outcome (Some 1%positive) sunk_world S Hh)
    as (Hc & Hhh & _).
  split; [exact S|]. split; [exact Hh|]. split; [exact Hc|exact Hhh].
Defined.

End ScenarioFactsMore.
